(** * An OCR service in front of a local vLLM server: the gateway client

    A shallow embedding of [app/vllm_client.py] and [app/image_processing.py]
    and the properties their specification states about them, and of the
    import guard of [app/vllm_no_flash_entrypoint.py] and the log formatter
    of [app/logging_utils.py] (up to its call of [json.dumps]).

    Conventions of the embedding.
    - A Python [str] is a Rocq [string]; every character is one code point
      in the range U+0000..U+00FF, and [isspace] and [lower] are Python's on
      that range.
    - A parsed JSON document is a [jvalue]; a Python [dict] with string
      keys is a [gmap string jvalue], a Python [list] a Rocq [list].
    - A Python call that may raise returns an [outcome]; the exceptions the
      modelled code can meet are the constructors of [exception].
    - The network and the clocks are an environment [Env] the client talks
      to; what the client did is recorded in a [World].
    - A Python [float] the client computes with is a finite binary64
      number, given as the rational it stands for; sums, differences and
      products are rounded to the nearest such number, ties to the even
      one ([Float64]). No result is as large as 2^1024: the numbers are
      clock readings in seconds, a timeout and a duration in milliseconds.

    The specification names things in its own words. Its GatewayError is
    the source's [VLLMError] (with the subclass [VLLMTimeoutError]); its
    error classes are the values of [backend_error_class]:
    - "http_error" is the tag ["vllm_http_error"],
    - "startup_timeout" is the tag ["vllm_startup_timeout"],
    - "malformed_response" is the tag ["vllm_error"], the default of the
      constructor, which only the content extractor raises with;
    and its [wait_until_ready(timeout_seconds)] is [_wait_until_ready],
    which reads the timeout from the settings. *)

From Stdlib Require Import ZArith QArith Qround Lqa String Ascii List Bool Lia.
From Stdlib Require PrimFloat FloatOps SpecFloat Uint63.
From stdpp Require Import base option list strings gmap pretty.

Open Scope string_scope.

(** ** Python strings *)

Module PyStr.

Definition LF : ascii := "010"%char.

(** [str.isspace] on one character below U+0100: TAB..CR, FS..US, space,
    NEL and NBSP. *)
Definition isspace (c : ascii) : bool :=
  let n := N_of_ascii c in
  ((9 <=? n) && (n <=? 13) || (28 <=? n) && (n <=? 32)
   || (n =? 133) || (n =? 160))%N.

Fixpoint lstrip (s : string) : string :=
  match s with
  | String c s' => if isspace c then lstrip s' else s
  | EmptyString => EmptyString
  end.

Fixpoint rstrip (s : string) : string :=
  match s with
  | String c s' =>
      match rstrip s' with
      | EmptyString => if isspace c then EmptyString else String c EmptyString
      | r => String c r
      end
  | EmptyString => EmptyString
  end.

(** [s.strip()] *)
Definition strip (s : string) : string := rstrip (lstrip s).

(** [str.lower] on one character below U+0100: A..Z, and the capital
    letters U+00C0..U+00DE except the multiplication sign U+00D7. *)
Definition lower_char (c : ascii) : ascii :=
  let n := N_of_ascii c in
  if ((65 <=? n) && (n <=? 90)
      || (192 <=? n) && (n <=? 222) && negb (n =? 215))%N
  then ascii_of_N (n + 32) else c.

(** [s.lower()] *)
Fixpoint lower (s : string) : string :=
  match s with
  | String c s' => String (lower_char c) (lower s')
  | EmptyString => EmptyString
  end.

(** [s[:n]] *)
Fixpoint slice_to (n : nat) (s : string) : string :=
  match n, s with
  | S n', String c s' => String c (slice_to n' s')
  | _, _ => EmptyString
  end.

(** [sep.join(parts)] *)
Fixpoint join (sep : string) (parts : list string) : string :=
  match parts with
  | [] => EmptyString
  | [p] => p
  | p :: rest => p +:+ sep +:+ join sep rest
  end.

(** The truth value of a string: [bool(s)]. *)
Definition truthy (s : string) : bool :=
  match s with EmptyString => false | String _ _ => true end.

End PyStr.

(** ** JSON values and the Python operations the client uses on them *)

(** A Python [float]: what [json.loads] can produce. *)
Inductive pyfloat := Finite (q : Q) | Infinity (negative : bool) | NaN.

Unset Elimination Schemes.
Inductive jvalue :=
| JNull
| JBool (b : bool)
| JInt (n : Z)
| JFloat (f : pyfloat)
| JString (s : string)
| JList (items : list jvalue)
| JObject (members : gmap string jvalue).
Set Elimination Schemes.

(** A caught Python exception, as the client looks at it:
    [exc.__class__.__name__] and [str(exc)]. *)
Record pyexc := PyExc { exc_class : string; exc_str : string }.

(** [VLLMError.__init__]: the fields an error of the client carries. *)
Record VLLMError := mkVLLMError {
  message : string;
  detail : option string;
  backend_status_code : option Z;
  backend_error_class : string;
  backend_latency_ms : option Z
}.

(** [VLLMError(message)] with the keyword defaults of the constructor. *)
Definition VLLMError_default (msg : string) : VLLMError :=
  {| message := msg; detail := None; backend_status_code := None;
     backend_error_class := "vllm_error"; backend_latency_ms := None |}.

(** What a call can raise. [VLLMTimeoutError] is a subclass of [VLLMError]
    with the same fields; the builtin exceptions are those the operations
    below raise on a value of the wrong shape. *)
Inductive exception :=
| EVLLMError (e : VLLMError)
| EVLLMTimeoutError (e : VLLMError)
| AttributeError (what : string)
| TypeError (what : string)
| IndexError (what : string)
| KeyError (what : string).

(** [isinstance(exc, VLLMError)]: the client's own error taxonomy. *)
Definition is_VLLMError (x : exception) : bool :=
  match x with
  | EVLLMError _ | EVLLMTimeoutError _ => true
  | _ => false
  end.

Inductive outcome (A : Type) :=
| Return (a : A)
| Raise (x : exception).
Arguments Return {A} a.
Arguments Raise {A} x.

Definition rbind {A B} (r : outcome A) (k : A -> outcome B) : outcome B :=
  match r with
  | Return a => k a
  | Raise x => Raise x
  end.

Declare Scope py_scope.
Delimit Scope py_scope with py.
Notation "x <~ r ; k" := (rbind r (fun x => k))
  (at level 100, r at next level, right associativity) : py_scope.
Open Scope py_scope.

Module Py.

Definition isinstance_str (v : jvalue) : bool :=
  match v with JString _ => true | _ => false end.
Definition isinstance_list (v : jvalue) : bool :=
  match v with JList _ => true | _ => false end.
Definition isinstance_dict (v : jvalue) : bool :=
  match v with JObject _ => true | _ => false end.

(** [type(v).__name__] *)
Definition type_name (v : jvalue) : string :=
  match v with
  | JNull => "NoneType" | JBool _ => "bool" | JInt _ => "int"
  | JFloat _ => "float" | JString _ => "str" | JList _ => "list"
  | JObject _ => "dict"
  end.

(** [v.get(key, default)]: only a dict has the method. *)
Definition get (v : jvalue) (key : string) (dflt : jvalue) : outcome jvalue :=
  match v with
  | JObject m => Return (default dflt (m !! key))
  | _ => Raise (AttributeError (type_name v))
  end.

(** [v[0]] *)
Definition getitem0 (v : jvalue) : outcome jvalue :=
  match v with
  | JList (x :: _) => Return x
  | JList [] => Raise (IndexError "list")
  | JString (String c _) => Return (JString (String c EmptyString))
  | JString EmptyString => Raise (IndexError "str")
  | JObject _ => Raise (KeyError "0")
  | _ => Raise (TypeError (type_name v))
  end.

(** [bool(v)] *)
Definition truthy (v : jvalue) : bool :=
  match v with
  | JNull => false
  | JBool b => b
  | JInt n => negb (n =? 0)%Z
  | JFloat (Finite q) => negb (Qeq_bool q 0)
  | JFloat _ => true
  | JString s => PyStr.truthy s
  | JList l => match l with [] => false | _ => true end
  | JObject m => negb (bool_decide (m = ∅))
  end.

End Py.

(** ** app/image_processing.py *)

Module ImageProcessing.
Import PyStr.

Definition ALLOWED_CONTENT_TYPES : gset string :=
  {[ "image/jpeg"; "image/jpg"; "image/png"; "image/webp"; "image/bmp";
     "image/tiff" ]}.

Definition _MIME_ALIASES : gmap string string :=
  {[ "image/jpg" := "image/jpeg" ]}.

Definition normalize_image_mime_type (content_type : string) : string :=
  let normalized := lower (strip content_type) in
  default normalized (_MIME_ALIASES !! normalized).

(** The alphabet of [base64.b64encode]. *)
Definition b64_alphabet : string :=
  "ABCDEFGHIJKLMNOPQRSTUVWXYZabcdefghijklmnopqrstuvwxyz0123456789+/".

Definition b64_digit (n : N) : ascii :=
  default "="%char (String.get (N.to_nat n) b64_alphabet).

(** [base64.b64encode(bs).decode("ascii")]: three bytes give four digits,
    a last group of one or two bytes is padded with [=]. *)
Fixpoint b64encode (bs : list Byte.byte) : string :=
  match bs with
  | [] => EmptyString
  | [a] =>
      let n := Byte.to_N a in
      String (b64_digit (n / 4))
        (String (b64_digit (n mod 4 * 16)) "==")
  | [a; b] =>
      let n := (Byte.to_N a * 256 + Byte.to_N b)%N in
      String (b64_digit (n / 1024))
        (String (b64_digit (n / 16 mod 64))
           (String (b64_digit (n mod 16 * 4)) "="))
  | a :: b :: c :: rest =>
      let n := (Byte.to_N a * 65536 + Byte.to_N b * 256 + Byte.to_N c)%N in
      String (b64_digit (n / 262144))
        (String (b64_digit (n / 4096 mod 64))
           (String (b64_digit (n / 64 mod 64))
              (String (b64_digit (n mod 64)) (b64encode rest))))
  end.

Definition to_data_url (image_bytes : list Byte.byte) (mime_type : string)
  : string :=
  let normalized_mime := normalize_image_mime_type mime_type in
  let encoded := b64encode image_bytes in
  "data:" +:+ normalized_mime +:+ ";base64," +:+ encoded.

End ImageProcessing.

(** ** app/vllm_client.py: the pure helpers *)

(** [httpx.Response] as the client reads it: [status_code], [text], and
    what [json()] gives, the parsed body or the [ValueError] it raises. *)
Record Response := mkResponse {
  status_code : Z;
  text : string;
  json : pyexc + jvalue
}.

Module VLLMClientHelpers.
Import PyStr.

Definition _extract_error_message (response : Response) : string :=
  match json response with
  | inl _ => slice_to 500 (text response)
  | inr payload =>
      match payload with
      | JObject p =>
          let error := default JNull (p !! "error") in
          let from_error :=
            match error with
            | JObject e =>
                match default JNull (e !! "message") with
                | JString message =>
                    if truthy (strip message) then Some (strip message)
                    else None
                | _ => None
                end
            | _ => None
            end in
          match from_error with
          | Some m => m
          | None =>
              match default JNull (p !! "message") with
              | JString message =>
                  if truthy (strip message) then strip message
                  else slice_to 500 (text response)
              | _ => slice_to 500 (text response)
              end
          end
      | _ => slice_to 500 (text response)
      end
  end.

(** The body of the [for item in content] loop: one step on [parts]. *)
Definition append_text_part (parts : list string) (item : jvalue)
  : outcome (list string) :=
  if Py.isinstance_dict item then
    text <~ Py.get item "text" JNull;
    match text with
    | JString t => Return (parts ++ [t])%list
    | _ => Return parts
    end
  else Return parts.

Fixpoint for_each {S A} (body : S -> A -> outcome S) (s : S) (l : list A)
  : outcome S :=
  match l with
  | [] => Return s
  | x :: l' => s' <~ body s x; for_each body s' l'
  end.

Definition no_choices : VLLMError :=
  VLLMError_default "vLLM response did not include any completion choices.".

Definition unsupported_format : VLLMError :=
  VLLMError_default "vLLM returned an unsupported completion content format.".

Definition _extract_message_content (result : jvalue) : outcome string :=
  choices <~ Py.get result "choices" (JList []);
  if negb (Py.isinstance_list choices) || negb (Py.truthy choices) then
    Raise (EVLLMError no_choices)
  else
    head <~ Py.getitem0 choices;
    first_choice <~ (if Py.isinstance_dict head then Py.getitem0 choices
                     else Return (JObject ∅));
    message <~ (if Py.isinstance_dict first_choice
                then Py.get first_choice "message" (JObject ∅)
                else Return (JObject ∅));
    content <~ (if Py.isinstance_dict message
                then Py.get message "content" (JString "")
                else Return (JString ""));
    match content with
    | JString s => Return (strip s)
    | _ =>
        from_list <~
          match content with
          | JList items =>
              parts <~ for_each append_text_part [] items;
              let combined := strip (join (String LF "") parts) in
              if truthy combined then Return (Some combined)
              else Return None
          | _ => Return None
          end;
        match from_list with
        | Some combined => Return combined
        | None =>
            text <~ (if Py.isinstance_dict first_choice
                     then Py.get first_choice "text" JNull
                     else Return JNull);
            match text with
            | JString t => Return (strip t)
            | _ => Raise (EVLLMError unsupported_format)
            end
        end
    end.

End VLLMClientHelpers.


(** ** Python floats

    A finite binary64 number is a multiple of 2^-1074 with at most 53
    significant binary digits. *)

Module Float64.

(** The unit all finite binary64 numbers are multiples of is
    2^-[unit_exponent]. *)
Definition unit_exponent : Z := 1074.

(** [q] in that unit. *)
Definition scaled (q : Q) : Q := q * inject_Z (2 ^ unit_exponent).

(** The distance, in the unit, between neighbouring binary64 numbers at
    the magnitude [r] (in the unit) is 2^[exponent r]: 1 below 2^53, and
    doubling with every further binary digit. *)
Definition exponent (r : Q) : Z := Z.max 0 (Z.log2 (Qfloor r) - 52).

Definition gap (r : Q) : Z := 2 ^ exponent r.

(** The integer nearest to [q]; the even one of two that are equally
    near. *)
Definition rne (q : Q) : Z :=
  let f := Qfloor q in
  match Qcompare (q - inject_Z f) (1 # 2) with
  | Lt => f
  | Gt => (f + 1)%Z
  | Eq => if Z.even f then f else (f + 1)%Z
  end.

(** The binary64 number (in the unit) nearest to a magnitude [r]. *)
Definition nearest (r : Q) : Z := (rne (r / inject_Z (gap r)) * gap r)%Z.

(** The binary64 number (in the unit) nearest to [r]: rounding is the
    same on both sides of zero. *)
Definition round_scaled (r : Q) : Z :=
  if Qle_bool 0 r then nearest r else (- nearest (- r))%Z.

(** The binary64 number nearest to [q]: what a float operation returns
    whose exact result is [q]. *)
Definition round (q : Q) : Q :=
  Qred (inject_Z (round_scaled (scaled q)) / inject_Z (2 ^ unit_exponent)).

(** [a + b], [a - b], [a * b] on floats. *)
Definition add (a b : Q) : Q := round (a + b).
Definition sub (a b : Q) : Q := round (a - b).
Definition mul (a b : Q) : Q := round (a * b).

End Float64.

(** The binary64 numbers of the processor, to compare [Float64] with. *)
Module Binary64.

Definition of_Z (z : Z) : PrimFloat.float :=
  if (z <? 0)%Z then PrimFloat.opp (PrimFloat.of_uint63 (Uint63.of_Z (- z)))
  else PrimFloat.of_uint63 (Uint63.of_Z z).

(** The float quotient of [p] and [q], times 2^[e]. *)
Definition make (p q e : Z) : PrimFloat.float :=
  FloatOps.Z.ldexp (PrimFloat.div (of_Z p) (of_Z q)) e.

(** The rational a finite binary64 number stands for. *)
Definition value (f : PrimFloat.float) : option Q :=
  match FloatOps.Prim2SF f with
  | SpecFloat.S754_zero _ => Some 0%Q
  | SpecFloat.S754_finite s m e =>
      Some (Qred ((if s then -1 else 1) * inject_Z (Z.pos m)
                  * (if (0 <=? e)%Z then inject_Z (2 ^ e)
                     else / inject_Z (2 ^ (- e)))))
  | _ => None
  end.

Definition same (v : option Q) (q : Q) : bool :=
  match v with
  | Some x => Qeq_bool x q
  | None => false
  end.

(** The processor's sum, difference and product of [f] and [g] are what
    [Float64] gives on their values. *)
Definition agree (f g : PrimFloat.float) : bool :=
  match value f, value g with
  | Some a, Some b =>
      same (value (PrimFloat.add f g)) (Float64.add a b)
      && same (value (PrimFloat.sub f g)) (Float64.sub a b)
      && same (value (PrimFloat.mul f g)) (Float64.mul a b)
  | _, _ => false
  end.

(** 0.0, 0.1, 0.7, 0.009, 1000.0, a third, -5/7, 2^53 - 1, 2^52 + 1, and
    two numbers below the smallest normal one. *)
Definition samples : list PrimFloat.float :=
  [ make 0 1 0; make 1 10 0; make 7 10 0; make 9 1000 0; make 1000 1 0;
    make 1 3 0; make (-5) 7 0; make 9007199254740991 1 0;
    make 4503599627370497 1 0; make 3 1 (-1074); make 1 3 (-1030) ].

(** Quotients [p / q] of integers, which the processor rounds as
    [Float64.round] does. *)
Definition quotients : list (Z * Z) :=
  [ (1, 10); (7, 10); (9, 1000); (1, 3); (-2, 3); (123456789, 1000);
    (0, 1); (4503599627370497, 3); (-1, 9007199254740991) ]%Z.

End Binary64.

(** ** The world the client runs in *)

(** One HTTP request of the client's [httpx.AsyncClient]. *)
Inductive request :=
| GET (url : string)
| POST (url : string) (body : jvalue).

(** What [await self._client.get/post(...)] comes back with: a response, or
    an exception; [timeout] says whether the exception is an
    [httpx.TimeoutException]. *)
Inductive reply :=
| Responded (response : Response)
| Failed (timeout : bool) (exc : pyexc).

(** What the client does to the outside, in order. *)
Inductive effect :=
| Request (rq : request)
| Sleep (seconds : Z).

(** The environment: the time each of the two clocks shows at its
    successive readings, and the backend, whose reply may depend on
    everything done before. *)
Record Env := mkEnv {
  monotonic_clock : nat -> Q;
  perf_counter_clock : nat -> Q;
  backend : list effect -> request -> reply
}.

(** What the [n]-th call of [time.monotonic()] and of
    [time.perf_counter()] returns: the float nearest to the time the clock
    shows. *)
Definition monotonic (env : Env) (n : nat) : Q :=
  Float64.round (monotonic_clock env n).

Definition perf_counter (env : Env) (n : nat) : Q :=
  Float64.round (perf_counter_clock env n).

Arguments monotonic : simpl never.
Arguments perf_counter : simpl never.

Record World := mkWorld {
  monotonic_reads : nat;
  perf_counter_reads : nat;
  trace : list effect
}.

(** [app.config.Settings], which is not among the sources: the fields the
    client reads. The startup timeout is the configured number of seconds;
    the client computes with the float nearest to it. *)
Record Settings := mkSettings {
  ocr_prompt : string;
  max_tokens : Z;
  vllm_startup_timeout_seconds : Q;
  resolved_vllm_model_id : string;
  temperature : pyfloat;
  top_p : pyfloat;
  top_k : Z
}.

(** Computations that act on the world and may raise. *)
Definition M (A : Type) : Type := World -> outcome A * World.

Definition ret {A} (a : A) : M A := fun w => (Return a, w).
Definition raise {A} (x : exception) : M A := fun w => (Raise x, w).
Definition lift {A} (r : outcome A) : M A := fun w => (r, w).
Definition perform {A} (f : World -> A * World) : M A :=
  fun w => let '(a, w') := f w in (Return a, w').
Definition bind {A B} (m : M A) (k : A -> M B) : M B :=
  fun w =>
    match m w with
    | (Return a, w') => k a w'
    | (Raise x, w') => (Raise x, w')
    end.

Notation "x <- m ;; k" := (bind m (fun x => k))
  (at level 100, m at next level, right associativity) : py_scope.
Notation "m ;;; k" := (bind m (fun _ => k))
  (at level 100, right associativity) : py_scope.

(** [a < b] on floats. *)
Definition Qltb (a b : Q) : bool := negb (Qle_bool b a).

(** [int(x)] of a float: truncation towards zero. *)
Definition py_int (x : Q) : Z := Z.quot (Qnum x) (Z.pos (Qden x)).

Section Client.
Import PyStr VLLMClientHelpers.

Variable settings : Settings.
Variable env : Env.

(** [time.monotonic()], [time.perf_counter()]: the next reading of the
    clock. *)
Definition time_monotonic (w : World) : Q * World :=
  (monotonic env (monotonic_reads w),
   mkWorld (S (monotonic_reads w)) (perf_counter_reads w) (trace w)).

Definition time_perf_counter (w : World) : Q * World :=
  (perf_counter env (perf_counter_reads w),
   mkWorld (monotonic_reads w) (S (perf_counter_reads w)) (trace w)).

(** [await self._client.get(url)], [await self._client.post(url, json=...)]:
    the backend's reply to the request, which joins the trace. *)
Definition send (rq : request) (w : World) : reply * World :=
  (backend env (trace w) rq,
   mkWorld (monotonic_reads w) (perf_counter_reads w)
     (trace w ++ [Request rq])).

(** [await asyncio.sleep(seconds)] *)
Definition asyncio_sleep (seconds : Z) (w : World) : unit * World :=
  (tt, mkWorld (monotonic_reads w) (perf_counter_reads w)
         (trace w ++ [Sleep seconds])).

Definition TWO_BY_TWO_TRANSPARENT_PNG : string :=
  "data:image/png;base64," +:+
  "iVBORw0KGgoAAAANSUhEUgAAAAIAAAACCAYAAABytg0kAAAAC0lEQVR42mNgQAcAABIAAeRVjecAAAAASUVORK5CYII=".

Definition _build_payload (prompt image_data_url : string) (max_tokens : Z)
  : jvalue :=
  JObject {[
    "model" := JString (resolved_vllm_model_id settings);
    "messages" := JList [
      JObject {[
        "role" := JString "user";
        "content" := JList [
          JObject {[ "type" := JString "text"; "text" := JString prompt ]};
          JObject {[ "type" := JString "image_url";
                     "image_url" :=
                       JObject {[ "url" := JString image_data_url ]} ]}
        ]
      ]}
    ];
    "temperature" := JFloat (temperature settings);
    "top_p" := JFloat (top_p settings);
    "max_tokens" := JInt max_tokens;
    "top_k" := JInt (top_k settings)
  ]}.

(** [int((time.perf_counter() - started) * 1000)]: a float difference, a
    float product with [1000.0], and the truncation of that float. *)
Definition latency_since (started now : Q) : Z :=
  py_int (Float64.mul (Float64.sub now started) 1000).

(** Every path through the source reads [time.perf_counter] once before
    the request and once after it, in the handler that catches the
    exception or after the response came: the second reading is taken
    here before the cases are told apart. *)
Definition _chat_completion (payload : jvalue) : M jvalue :=
  started <- perform time_perf_counter;;
  r <- perform (send (POST "/v1/chat/completions" payload));;
  now <- perform time_perf_counter;;
  let latency_ms := latency_since started now in
  match r with
  | Failed true exc =>
      raise (EVLLMTimeoutError
               {| message := "vLLM request timed out.";
                  detail := Some (exc_str exc);
                  backend_status_code := None;
                  backend_error_class := exc_class exc;
                  backend_latency_ms := Some latency_ms |})
  | Failed false exc =>
      raise (EVLLMError
               {| message := "vLLM request failed.";
                  detail := Some (exc_str exc);
                  backend_status_code := None;
                  backend_error_class := exc_class exc;
                  backend_latency_ms := Some latency_ms |})
  | Responded response =>
      if (400 <=? status_code response)%Z then
        let detail := _extract_error_message response in
        raise (EVLLMError
                 {| message := "vLLM returned an inference error.";
                    detail := Some detail;
                    backend_status_code := Some (status_code response);
                    backend_error_class := "vllm_http_error";
                    backend_latency_ms := Some latency_ms |})
      else
        match json response with
        | inl exc =>
            raise (EVLLMError
                     {| message := "vLLM returned invalid JSON.";
                        detail := Some (exc_str exc);
                        backend_status_code := Some (status_code response);
                        backend_error_class := exc_class exc;
                        backend_latency_ms := Some latency_ms |})
        | inr data => ret data
        end
  end.

Definition run_ocr (image_data_url : string) : M string :=
  let payload :=
    _build_payload (ocr_prompt settings) image_data_url
      (max_tokens settings) in
  response <- _chat_completion payload;;
  lift (_extract_message_content response).

Definition _verify_vision_path : M unit :=
  let payload :=
    _build_payload "Reply with exactly OK." TWO_BY_TWO_TRANSPARENT_PNG 8 in
  _chat_completion payload;;;
  ret tt.

(** The two texts [_wait_until_ready] keeps as [last_error]. *)
Definition probe_failed (response : Response) : string :=
  "vLLM readiness probe failed with HTTP "
  +:+ pretty (status_code response) +:+ ": "
  +:+ slice_to 400 (text response).

Definition probe_error (exc : pyexc) : string :=
  "vLLM readiness probe error: " +:+ exc_class exc +:+ ": " +:+ exc_str exc.

Definition startup_timeout (last_error : option string) : VLLMError :=
  {| message := "Timed out waiting for local vLLM server readiness.";
     detail := last_error;
     backend_status_code := None;
     backend_error_class := "vllm_startup_timeout";
     backend_latency_ms := None |}.

(** The [while time.monotonic() < deadline] loop. Each turn reads the
    clock once; [fuel] bounds the number of turns, and [None] says the
    bound was reached with the loop still running. *)
Fixpoint wait_loop (fuel : nat) (deadline : Q) (last_error : option string)
  (w : World) : option (outcome unit * World) :=
  match fuel with
  | O => None
  | S fuel' =>
      let '(now, w1) := time_monotonic w in
      if Qltb now deadline then
        let '(r, w2) := send (GET "/v1/models") w1 in
        match r with
        | Responded response =>
            if (status_code response =? 200)%Z then Some (Return tt, w2)
            else
              let last_error := Some (probe_failed response) in
              let '(_, w3) := asyncio_sleep 1 w2 in
              wait_loop fuel' deadline last_error w3
        | Failed _ exc =>
            let last_error := Some (probe_error exc) in
            let '(_, w3) := asyncio_sleep 1 w2 in
            wait_loop fuel' deadline last_error w3
        end
      else
        Some (Raise (EVLLMTimeoutError (startup_timeout last_error)), w1)
  end.

Definition _wait_until_ready (fuel : nat) (w : World)
  : option (outcome unit * World) :=
  let '(now, w0) := time_monotonic w in
  let deadline :=
    Float64.add now (Float64.round (vllm_startup_timeout_seconds settings)) in
  wait_loop fuel deadline None w0.

Definition startup_check (fuel : nat) (check_vision : bool) (w : World)
  : option (outcome unit * World) :=
  match _wait_until_ready fuel w with
  | Some (Return _, w') =>
      if check_vision then Some (_verify_vision_path w')
      else Some (Return tt, w')
  | other => other
  end.

(** Modelled from the spec: what becomes of an upload in the request
    orchestrator, whose module is not among the sources. It is turned away,
    or handed to the client. *)
Inductive upload_outcome :=
| Rejected
| Forwarded (r : outcome string).

(** Modelled from the spec: the request orchestrator, whose module is not
    among the sources. It receives an upload, takes the content type
    trimmed and without regard to case, rejects one that is not on the
    allow-list before anything reaches the client, and otherwise calls
    the image encoder and then the client. *)
Definition handle_upload (image_bytes : list Byte.byte)
  (content_type : string) (w : World) : upload_outcome * World :=
  if bool_decide (ImageProcessing.normalize_image_mime_type content_type
                  ∈ ImageProcessing.ALLOWED_CONTENT_TYPES)
  then
    let '(r, w') :=
      run_ocr (ImageProcessing.to_data_url image_bytes content_type) w in
    (Forwarded r, w')
  else (Rejected, w).

End Client.

(** ** app/vllm_no_flash_entrypoint.py *)

Module NoFlashEntrypoint.

(** [s.startswith(prefix)] *)
Fixpoint startswith (prefix s : string) : bool :=
  match prefix, s with
  | EmptyString, _ => true
  | String a prefix', String b s' => Ascii.eqb a b && startswith prefix' s'
  | String _ _, EmptyString => false
  end.

Definition _is_blocked_module (module_name : string) : bool :=
  String.eqb module_name "flash_attn"
  || startswith "flash_attn." module_name.

Section Guard.

(** What the import machinery works on, which the entry point only hands
    through: namespaces ([globals], [locals]) and loaded modules. *)
Variable namespace : Type.
Variable module : Type.

(** The arguments of [builtins.__import__]. *)
Record import_call := mkImportCall {
  name : string;
  globals : option namespace;
  locals : option namespace;
  fromlist : list string;
  level : Z
}.

(** An import returns a module or raises. *)
Inductive import_result :=
| Imported (m : module)
| ImportRaised (exc : pyexc).

(** [guarded_import], closed over the [original_import] it was defined
    with. *)
Definition guarded_import (original_import : import_call -> import_result)
  (call : import_call) : import_result :=
  if _is_blocked_module (name call) then
    ImportRaised
      (PyExc "ModuleNotFoundError"
         ("Blocked optional dependency: " +:+ name call))
  else original_import call.

(** [_install_flash_attn_block]: the new value of [builtins.__import__],
    given the one in place. *)
Definition _install_flash_attn_block
  (builtins_import : import_call -> import_result)
  : import_call -> import_result :=
  guarded_import builtins_import.

End Guard.

Arguments name {namespace} _.
Arguments guarded_import {namespace module} _ _.
Arguments _install_flash_attn_block {namespace module} _ _.
Arguments Imported {module} _.
Arguments ImportRaised {module} _.

End NoFlashEntrypoint.

(** ** app/logging_utils.py *)

Module LoggingUtils.

(** A [logging.LogRecord] as the formatter reads it: the level and logger
    names, the text [getMessage()] gives, the attributes set on the record
    with [extra=] ([getattr(record, key, None)] is [None] for the others),
    and the text of [formatException(record.exc_info)] when [exc_info] is
    set. *)
Record LogRecord := mkLogRecord {
  levelname : string;
  name : string;
  getMessage : string;
  attributes : gmap string jvalue;
  exc_info : option string
}.

(** A [dict] that keeps the order its keys were first set in, as
    [json.dumps] writes it. *)
Definition odict : Type := list (string * jvalue).

(** [d[key] = value] *)
Fixpoint setitem (d : odict) (key : string) (value : jvalue) : odict :=
  match d with
  | [] => [(key, value)]
  | (k, v) :: d' =>
      if String.eqb k key then (k, value) :: d'
      else (k, v) :: setitem d' key value
  end.

(** The keys the formatter copies from a record. *)
Definition EXTRA_KEYS : list string :=
  [ "request_id"; "path"; "method"; "status_code"; "duration_ms";
    "error_code"; "client_ip"; "file_name"; "file_size"; "model_path";
    "model_name"; "model_repo_id"; "model_filename"; "model_store_dir";
    "configured_device"; "applied_device"; "configured_attn_impl";
    "applied_attn_impl"; "configured_top_k"; "configured_top_p";
    "applied_top_k"; "applied_top_p"; "backend"; "backend_status_code";
    "backend_latency_ms"; "backend_error_class"; "backend_error_detail";
    "startup_error_detail"; "retry_attempt" ].

(** [value is not None] *)
Definition is_not_None (value : jvalue) : bool :=
  match value with
  | JNull => false
  | _ => true
  end.

(** One turn of the [for key in (...)] loop. *)
Definition copy_key (record : LogRecord) (payload : odict) (key : string)
  : odict :=
  let value := default JNull (attributes record !! key) in
  if is_not_None value then setitem payload key value else payload.

(** [JsonLogFormatter.format] up to its last line: the [payload] it hands
    to [json.dumps]. [ts] is the text of
    [datetime.now(timezone.utc).isoformat()]. *)
Definition format_payload (ts : string) (record : LogRecord) : odict :=
  let payload :=
    [ ("ts", JString ts);
      ("level", JString (levelname record));
      ("logger", JString (name record));
      ("message", JString (getMessage record)) ] in
  let payload := fold_left (copy_key record) EXTRA_KEYS payload in
  match exc_info record with
  | Some text => setitem payload "exception" (JString text)
  | None => payload
  end.

End LoggingUtils.

(** * Vocabulary of the properties, and example data *)

Module Trimming.
Import PyStr.

(** A string that is empty or starts with a character [strip] keeps. *)
Definition starts_clean (s : string) : Prop :=
  match s with
  | String c _ => isspace c = false
  | EmptyString => True
  end.

End Trimming.

Module Extractor.
Import PyStr VLLMClientHelpers.

Definition nl : string := String LF EmptyString.

(** The first choice as the extractor takes it: the first element of
    ["choices"] when it is a dict, an empty dict otherwise. *)
Definition first_choice_of (head : jvalue) : gmap string jvalue :=
  match head with
  | JObject m => m
  | _ => ∅
  end.

(** The [content] the extractor goes on with: [message.content], or the
    empty string when [message] is no dict or has no [content]. *)
Definition content_of (first_choice : gmap string jvalue) : jvalue :=
  match default (JObject ∅) (first_choice !! "message") with
  | JObject msg => default (JString "") (msg !! "content")
  | _ => JString ""
  end.

(** The ["text"] member of a list element, when the element is an object
    and the member a string. *)
Definition text_field (item : jvalue) : option string :=
  match item with
  | JObject o =>
      match o !! "text" with
      | Some (JString t) => Some t
      | _ => None
      end
  | _ => None
  end.

(** Every element's string ["text"], in order; the others are skipped. *)
Definition text_fields (items : list jvalue) : list string :=
  omap text_field items.

(** The three extraction strategies, in the order they are tried. *)
Definition string_strategy (first_choice : gmap string jvalue)
  : option string :=
  match content_of first_choice with
  | JString s => Some (strip s)
  | _ => None
  end.

Definition list_strategy (first_choice : gmap string jvalue)
  : option string :=
  match content_of first_choice with
  | JList items =>
      let combined := strip (join nl (text_fields items)) in
      if truthy combined then Some combined else None
  | _ => None
  end.

Definition text_strategy (first_choice : gmap string jvalue)
  : option string :=
  match first_choice !! "text" with
  | Some (JString t) => Some (strip t)
  | _ => None
  end.

(** What the specification calls a GatewayError tagged
    "malformed_response": a [VLLMError] raised with the constructor's
    defaults, so with the class tag ["vllm_error"] and without a backend
    status code. *)
Definition malformed_response (r : outcome string) : Prop :=
  exists e, r = Raise (EVLLMError e)
            /\ backend_error_class e = "vllm_error"
            /\ backend_status_code e = None.

Definition hello_response : gmap string jvalue :=
  {[ "choices" := JList [
       JObject {[ "message" := JObject {[ "content" := JString "Hello" ]} ]}
     ] ]}.

Definition a_b_content : list jvalue :=
  [ JObject {[ "text" := JString "A" ]};
    JObject {[ "type" := JString "image_url" ]};
    JObject {[ "text" := JInt 5 ]};
    JString "skipped";
    JObject {[ "text" := JString "B" ]} ].

Definition a_b_response : gmap string jvalue :=
  {[ "choices" := JList [
       JObject {[ "message" := JObject {[ "content" := JList a_b_content ]} ]}
     ] ]}.

End Extractor.

(** The error-message policy in the specification's words, to compare with
    [_extract_error_message]: rules that each may give a message, tried in
    order, the first that gives one wins; the first 500 characters of the
    raw text otherwise, and at once when the body is not JSON. *)
Module ErrorMessagePolicy.
Import PyStr VLLMClientHelpers.

(** The member of a JSON object under a key; a body that is not an object
    has none. *)
Definition member (key : string) (body : jvalue) : option jvalue :=
  match body with
  | JObject m => m !! key
  | _ => None
  end.

(** A non-blank string, trimmed. *)
Definition non_blank (v : jvalue) : option string :=
  match v with
  | JString s => if decide (strip s = "") then None else Some (strip s)
  | _ => None
  end.

(** Rule 1: an object under ["error"] with a non-blank string
    ["message"]. *)
Definition error_object_message (body : jvalue) : option string :=
  match member "error" body with
  | Some (JObject e) => e !! "message" ≫= non_blank
  | _ => None
  end.

(** Rule 2: a top-level non-blank string ["message"]. *)
Definition top_level_message (body : jvalue) : option string :=
  member "message" body ≫= non_blank.

Definition raw_text_fallback (response : Response) : string :=
  slice_to 500 (text response).

Fixpoint first_match {A B} (rules : list (A -> option B)) (a : A)
  : option B :=
  match rules with
  | [] => None
  | rule :: rules' =>
      match rule a with
      | Some b => Some b
      | None => first_match rules' a
      end
  end.

Definition error_message_policy (response : Response) : string :=
  match json response with
  | inl _ => raw_text_fallback response
  | inr body =>
      default (raw_text_fallback response)
        (first_match [error_object_message; top_level_message] body)
  end.

End ErrorMessagePolicy.

Module ErrorDetail.

(** The strings a parsed error body offers as its message: the
    ["message"] of the object under ["error"], and the top-level
    ["message"]. *)
Definition body_messages (body : jvalue) : list string :=
  match body with
  | JObject p =>
      (match p !! "error" with
       | Some (JObject e) =>
           match e !! "message" with
           | Some (JString m) => [m]
           | _ => []
           end
       | _ => []
       end
       ++ match p !! "message" with
          | Some (JString m) => [m]
          | _ => []
          end)%list
  | _ => []
  end.

End ErrorDetail.

Module Completion.
Import PyStr VLLMClientHelpers.

Definition completions : string := "/v1/chat/completions".

(** The request [run_ocr] sends for an image. *)
Definition ocr_request (settings : Settings) (image_data_url : string)
  : request :=
  POST completions
    (_build_payload settings (ocr_prompt settings) image_data_url
       (max_tokens settings)).

(** The latency [_chat_completion] measures in world [w]: between its two
    readings of [time.perf_counter]. *)
Definition measured_latency (env : Env) (w : World) : Z :=
  latency_since (perf_counter env (perf_counter_reads w))
    (perf_counter env (S (perf_counter_reads w))).

Definition http_error (env : Env) (w : World) (response : Response)
  : VLLMError :=
  {| message := "vLLM returned an inference error.";
     detail := Some (_extract_error_message response);
     backend_status_code := Some (status_code response);
     backend_error_class := "vllm_http_error";
     backend_latency_ms := Some (measured_latency env w) |}.



(** The data URL of a one-byte image. *)
Definition tiny_image : string := "data:image/png;base64,AA==".

Definition settings0 : Settings :=
  {| ocr_prompt := "Extract the text of the image as markdown.";
     max_tokens := 2048;
     vllm_startup_timeout_seconds := 3;
     resolved_vllm_model_id := "ocr-model";
     temperature := Finite 0;
     top_p := Finite 1;
     top_k := 1 |}.

(** A clock that advances a second with each reading, a finer clock that
    advances an eighth of a second, and a backend with one answer. *)
Definition env_of (r : reply) : Env :=
  {| monotonic_clock := fun n => inject_Z (Z.of_nat n);
     perf_counter_clock := fun n => (inject_Z (Z.of_nat n) / 8)%Q;
     backend := fun _ _ => r |}.


Definition start : World :=
  {| monotonic_reads := 0; perf_counter_reads := 0; trace := [] |}.



(** A backend that answers every request with status 200 and a body that
    parses to [data]. *)
Definition answers (data : jvalue) : Env :=
  env_of (Responded {| status_code := 200; text := ""; json := inr data |}).

Definition empty_content : jvalue :=
  JObject {[ "choices" := JList [
    JObject {[ "message" := JObject {[ "content" := JString "" ]} ]} ] ]}.

Definition blank_content : gmap string jvalue :=
  {[ "choices" := JList [
    JObject {[ "message" := JObject {[ "content" := JString "  " ]} ]} ] ]}.

Definition null_content : gmap string jvalue :=
  {[ "choices" := JList [
    JObject {[ "message" := JObject {[ "content" := JNull ]} ]} ] ]}.

End Completion.

Module Readiness.
Import PyStr Completion.

Definition models : request := GET "/v1/models".

(** The world after one more reading of [time.monotonic]. *)
Definition clock_read (w : World) : World :=
  {| monotonic_reads := S (monotonic_reads w);
     perf_counter_reads := perf_counter_reads w;
     trace := trace w |}.

(** The world after a turn of the loop that did [effects]. *)
Definition after_turn (w : World) (effects : list effect) : World :=
  {| monotonic_reads := S (monotonic_reads w);
     perf_counter_reads := perf_counter_reads w;
     trace := trace w ++ effects |}.

(** The clock reading a turn of the loop starts with in [w]. *)
Definition now (env : Env) (w : World) : Q :=
  monotonic env (monotonic_reads w).

(** A backend that is starting: the first probe is answered 503, the
    second is refused, every later one is answered 200. *)
Definition loading : Response :=
  {| status_code := 503; text := "loading";
     json := inl (PyExc "JSONDecodeError" "Expecting value") |}.

Definition refused : pyexc :=
  PyExc "ConnectError" "All connection attempts failed".

Definition ready : Response :=
  {| status_code := 200; text := "{}"; json := inr (JObject ∅) |}.

Definition booting : Env :=
  {| monotonic_clock := fun n => inject_Z (Z.of_nat n);
     perf_counter_clock := fun n => (inject_Z (Z.of_nat n) / 8)%Q;
     backend := fun done _ =>
       match length done with
       | 0 => Responded loading
       | 2 => Failed false refused
       | _ => Responded ready
       end |}.

Definition patient : Settings :=
  {| ocr_prompt := ocr_prompt settings0;
     max_tokens := max_tokens settings0;
     vllm_startup_timeout_seconds := 10;
     resolved_vllm_model_id := resolved_vllm_model_id settings0;
     temperature := temperature settings0;
     top_p := top_p settings0;
     top_k := top_k settings0 |}.

Definition impatient : Settings :=
  {| ocr_prompt := ocr_prompt settings0;
     max_tokens := max_tokens settings0;
     vllm_startup_timeout_seconds := 0;
     resolved_vllm_model_id := resolved_vllm_model_id settings0;
     temperature := temperature settings0;
     top_p := top_p settings0;
     top_k := top_k settings0 |}.

(** A timeout of 0.7 s, and a ready backend with a clock that shows
    0.1 s and from then on 0.7999999999999999 s, the float next below
    0.8. *)
Definition brief : Settings :=
  {| ocr_prompt := ocr_prompt settings0;
     max_tokens := max_tokens settings0;
     vllm_startup_timeout_seconds := 7 # 10;
     resolved_vllm_model_id := resolved_vllm_model_id settings0;
     temperature := temperature settings0;
     top_p := top_p settings0;
     top_k := top_k settings0 |}.

Definition tenths : Env :=
  {| monotonic_clock := fun n =>
       match n with
       | O => 1 # 10
       | _ => 7205759403792793 # 9007199254740992
       end;
     perf_counter_clock := fun n => (inject_Z (Z.of_nat n) / 8)%Q;
     backend := fun _ _ => Responded ready |}.

(** The effects of [n] failed attempts: a request and a second of sleep
    each. *)
Fixpoint attempts (n : nat) : list effect :=
  match n with
  | O => []
  | S k => Request models :: Sleep 1 :: attempts k
  end.

(** A reply after which the prober tries again. *)
Definition not_ready (r : reply) : Prop :=
  match r with
  | Responded response => status_code response <> 200%Z
  | Failed _ _ => True
  end.

End Readiness.

Module Calls.
Import PyStr VLLMClientHelpers Completion.

(** The payload of the vision check. *)
Definition vision_request (settings : Settings) : request :=
  POST completions
    (_build_payload settings "Reply with exactly OK."
       TWO_BY_TWO_TRANSPARENT_PNG 8).

Definition one_choice : jvalue :=
  JObject {[ "message" := JObject {[ "content" := JString "one" ]} ]}.

Definition two_choices : gmap string jvalue :=
  {[ "choices" := JList [
       one_choice;
       JObject {[ "message" := JObject {[ "content" := JString "two" ]} ]} ];
     "model" := JString "m" ]}.

Definition single_choice : gmap string jvalue :=
  {[ "choices" := JList [one_choice] ]}.

End Calls.

Module Startup.
Import PyStr Completion Readiness Calls.


(** The backend's reply to the attempt the prober makes in [w] after [i]
    failed ones. *)
Definition reply_at (env : Env) (w : World) (i : nat) : reply :=
  backend env (trace w ++ attempts i) models.

(** The text the prober keeps of a failed attempt. *)
Definition error_of (r : reply) : string :=
  match r with
  | Responded response => probe_failed response
  | Failed _ exc => probe_error exc
  end.

(** The last error after [n] failed attempts: that of the last of them,
    and the one the loop started with when there was none. *)
Definition kept_error (env : Env) (last_error : option string) (w : World)
  (n : nat) : option string :=
  match n with
  | O => last_error
  | S k => Some (error_of (reply_at env w k))
  end.

(** How a finished run of the readiness loop ended after [n] failed
    attempts, each made before the deadline and answered with something
    else than a 200: with one more attempt before the deadline that was
    answered 200, or at the deadline with the error of the last attempt. *)
Definition ended (env : Env) (deadline : Q) (last_error : option string)
  (w : World) (n : nat) (r : outcome unit) (w' : World) : Prop :=
  (forall i, (i < n)%nat ->
     not_ready (reply_at env w i)
     /\ (monotonic env (monotonic_reads w + i) < deadline)%Q)
  /\ ((r = Return tt
       /\ (monotonic env (monotonic_reads w + n) < deadline)%Q
       /\ (exists response,
             reply_at env w n = Responded response
             /\ status_code response = 200%Z)
       /\ trace w' = (trace w ++ attempts n ++ [Request models])%list)
      \/ (r = Raise (EVLLMTimeoutError
                       (startup_timeout (kept_error env last_error w n)))
          /\ (deadline <= monotonic env (monotonic_reads w + n))%Q
          /\ trace w' = (trace w ++ attempts n)%list)).

(** The world in which [_wait_until_ready], called in [w], returns after
    [n] failed attempts: it has read the clock for the deadline and once
    a turn. *)
Definition ready_world (w : World) (n : nat) : World :=
  {| monotonic_reads := monotonic_reads w + S (S n);
     perf_counter_reads := perf_counter_reads w;
     trace := trace w ++ attempts n ++ [Request models] |}.

(** How a finished startup check ended after [n] failed readiness
    attempts: with the startup timeout and nothing sent after them, or
    with one more attempt that was answered 200, which is all without
    [check_vision]; with it the vision request follows, and its outcome
    is the outcome of the check. *)
Definition startup_ended (settings : Settings) (env : Env)
  (check_vision : bool) (w : World) (n : nat) (r : outcome unit)
  (w' : World) : Prop :=
  (forall i, (i < n)%nat -> not_ready (reply_at env w i))
  /\ ((r = Raise (EVLLMTimeoutError
                   (startup_timeout (kept_error env None w n)))
       /\ trace w' = (trace w ++ attempts n)%list)
      \/ ((exists response,
             reply_at env w n = Responded response
             /\ status_code response = 200%Z)
          /\ if check_vision
             then r = fst (_verify_vision_path settings env (ready_world w n))
                  /\ trace w'
                     = (trace w ++ attempts n
                        ++ [Request models;
                            Request (vision_request settings)])%list
             else r = Return tt
                  /\ trace w'
                     = (trace w ++ attempts n ++ [Request models])%list)).

End Startup.

Module Imports.
Import NoFlashEntrypoint.

(** An import function that finds every module, under its name. *)
Definition finds_all (call : import_call unit) : import_result string :=
  Imported (name call).

Definition importing (module_name : string) : import_call unit :=
  {| name := module_name; globals := None; locals := None;
     fromlist := []; level := 0 |}.

End Imports.

Module LogLine.
Import LoggingUtils.

(** The keys every log line starts with. *)
Definition BASE_KEYS : list string := ["ts"; "level"; "logger"; "message"].

(** The entry a record contributes for a key: its attribute when it is
    set and not [None]. *)
Definition extra_entry (record : LogRecord) (key : string)
  : option (string * jvalue) :=
  match attributes record !! key with
  | Some value => if is_not_None value then Some (key, value) else None
  | None => None
  end.

(** A record of a finished request, with one attribute left at [None] and
    one the formatter does not know. *)
Definition request_record : LogRecord :=
  {| levelname := "INFO"; name := "app.main";
     getMessage := "request finished";
     attributes := {[ "request_id" := JString "r1";
                      "error_code" := JNull;
                      "password" := JString "hunter2" ]};
     exc_info := None |}.

End LogLine.

Module Base64.
Import PyStr ImageProcessing.


(** The position of a character in a string, counted from 0; the length
    of the string when the character is not in it. *)
Fixpoint index_of (c : ascii) (s : string) : N :=
  match s with
  | EmptyString => 0
  | String d s' => if Ascii.eqb c d then 0 else N.succ (index_of c s')
  end.

(** The six bits a base64 digit stands for. *)
Definition b64_value (c : ascii) : N := index_of c b64_alphabet.

Definition byte_of (n : N) : Byte.byte := default Byte.x00 (Byte.of_N n).

(** Reading base64 text back, four characters at a time. *)
Fixpoint b64decode (s : string) : list Byte.byte :=
  match s with
  | String c1 (String c2 (String c3 (String c4 rest))) =>
      if Ascii.eqb c3 "="%char then
        [byte_of (b64_value c1 * 4 + b64_value c2 / 16)]
      else if Ascii.eqb c4 "="%char then
        let m := (b64_value c1 * 1024 + b64_value c2 * 16
                  + b64_value c3 / 4)%N in
        [byte_of (m / 256); byte_of (m mod 256)]
      else
        let n := (b64_value c1 * 262144 + b64_value c2 * 4096
                  + b64_value c3 * 64 + b64_value c4)%N in
        byte_of (n / 65536) :: byte_of (n / 256 mod 256)
          :: byte_of (n mod 256) :: b64decode rest
  | _ => []
  end.

(** Whether a character may occur in base64 text. *)
Definition is_b64_char (c : ascii) : bool :=
  negb (index_of c b64_alphabet =? 64)%N || Ascii.eqb c "="%char.

Fixpoint all_chars (p : ascii -> bool) (s : string) : bool :=
  match s with
  | EmptyString => true
  | String c s' => p c && all_chars p s'
  end.

End Base64.

Module Payload.

(** Reading a request body: the member of an object, the element of a
    list. *)
Definition member_of (key : string) (v : jvalue) : option jvalue :=
  match v with
  | JObject m => m !! key
  | _ => None
  end.

Definition item_of (i : nat) (v : jvalue) : option jvalue :=
  match v with
  | JList l => l !! i
  | _ => None
  end.

(** [payload["messages"][0]["content"][i]] *)
Definition content_part (i : nat) (payload : jvalue) : option jvalue :=
  ((member_of "messages" payload ≫= item_of 0) ≫= member_of "content")
    ≫= item_of i.

(** [payload["messages"][0]["content"][0]["text"]] *)
Definition prompt_of (payload : jvalue) : option jvalue :=
  content_part 0 payload ≫= member_of "text".

(** [payload["messages"][0]["content"][1]["image_url"]["url"]] *)
Definition image_url_of (payload : jvalue) : option jvalue :=
  (content_part 1 payload ≫= member_of "image_url") ≫= member_of "url".

(** The keys of a request body. *)
Definition keys_of (payload : jvalue) : gset string :=
  match payload with
  | JObject m => dom m
  | _ => ∅
  end.

End Payload.

(** * Properties *)

(** ** Rounding to binary64 *)

Module Float64Facts.
Import Float64.
Local Open Scope Q_scope.

Lemma compare_Lt (p q : Q) : p < q -> Qcompare p q = Lt.
Proof. intros L. apply Qlt_alt. exact L. Qed.

Lemma rne_comp (p q : Q) : p == q -> rne p = rne q.
Proof.
  intros E. unfold rne. rewrite (Qfloor_comp _ _ E).
  assert (C : (p - inject_Z (Qfloor q) ?= 1 # 2)
              = (q - inject_Z (Qfloor q) ?= 1 # 2)).
  { apply Qcompare_comp; [rewrite E|]; reflexivity. }
  cbv zeta. rewrite C. reflexivity.
Qed.

Lemma rne_floor (q : Q) : (Qfloor q <= rne q <= Qfloor q + 1)%Z.
Proof.
  unfold rne. cbv zeta.
  destruct (q - inject_Z (Qfloor q) ?= 1 # 2);
    [destruct (Z.even (Qfloor q))| |]; lia.
Qed.

Lemma rne_Z (z : Z) : rne (inject_Z z) = z.
Proof.
  unfold rne. cbv zeta. rewrite Qfloor_Z.
  assert (L : inject_Z z - inject_Z z < 1 # 2).
  { lra. }
  rewrite (compare_Lt _ _ L). reflexivity.
Qed.

(** Rounding to an integer is monotone, and keeps an integer. *)
Lemma rne_mono (p q : Q) : p <= q -> (rne p <= rne q)%Z.
Proof.
  intros L. pose proof (Qfloor_resp_le _ _ L) as F.
  pose proof (rne_floor p) as Bp. pose proof (rne_floor q) as Bq.
  destruct (Z.eq_dec (Qfloor p) (Qfloor q)) as [E|N]; [|lia].
  unfold rne in *. cbv zeta in *. rewrite <- E in *. clear Bp Bq F.
  assert (D : p - inject_Z (Qfloor p) <= q - inject_Z (Qfloor p)).
  { apply Qplus_le_compat; [exact L|apply Qle_refl]. }
  destruct (p - inject_Z (Qfloor p) ?= 1 # 2) eqn:Cp;
    destruct (q - inject_Z (Qfloor p) ?= 1 # 2) eqn:Cq;
    try destruct (Z.even (Qfloor p)); try lia; exfalso;
    repeat match goal with
    | H : (_ ?= _) = Eq |- _ => apply Qeq_alt in H
    | H : (_ ?= _) = Lt |- _ => apply Qlt_alt in H
    | H : (_ ?= _) = Gt |- _ => apply Qgt_alt in H
    end; lra.
Qed.

Lemma gap_exponent (r : Q) : gap r = (2 ^ exponent r)%Z.
Proof. reflexivity. Qed.

Lemma exponent_nonneg (r : Q) : (0 <= exponent r)%Z.
Proof. unfold exponent. lia. Qed.

Lemma gap_pos (r : Q) : (0 < gap r)%Z.
Proof.
  rewrite gap_exponent. apply Z.pow_pos_nonneg; [lia|apply exponent_nonneg].
Qed.

Lemma exponent_comp (p q : Q) : p == q -> exponent p = exponent q.
Proof. intros E. unfold exponent. rewrite (Qfloor_comp _ _ E). reflexivity. Qed.

Lemma exponent_mono (p q : Q) : p <= q -> (exponent p <= exponent q)%Z.
Proof.
  intros L. unfold exponent.
  pose proof (Z.log2_le_mono _ _ (Qfloor_resp_le _ _ L)). lia.
Qed.

Lemma inject_pos (z : Z) : (0 < z)%Z -> 0 < inject_Z z.
Proof. intros H. unfold Qlt. simpl. lia. Qed.

Lemma inject_nonneg (z : Z) : (0 <= z)%Z <-> 0 <= inject_Z z.
Proof. unfold Qle. simpl. lia. Qed.

Lemma div_le_inject (a : Q) (g m : Z) :
  (0 < g)%Z -> a <= inject_Z (m * g) -> a / inject_Z g <= inject_Z m.
Proof.
  intros G L. apply Qle_shift_div_r; [apply inject_pos; exact G|].
  rewrite <- inject_Z_mult. exact L.
Qed.

Lemma inject_le_div (a : Q) (g m : Z) :
  (0 < g)%Z -> inject_Z (m * g) <= a -> inject_Z m <= a / inject_Z g.
Proof.
  intros G L. apply Qle_shift_div_l; [apply inject_pos; exact G|].
  rewrite <- inject_Z_mult. exact L.
Qed.

Lemma floor_nonneg (a : Q) : 0 <= a -> (0 <= Qfloor a)%Z.
Proof. intros H. apply (Qfloor_resp_le 0 a) in H. exact H. Qed.

(** A magnitude is below 2^53 gaps, and at a gap above 1 it is at least
    2^52 gaps: rounding keeps at most 53 binary digits. *)
Lemma below_top (a : Q) : 0 <= a -> a <= inject_Z (2 ^ 53 * gap a).
Proof.
  intros H. pose proof (floor_nonneg a H) as F.
  apply Qle_trans with (inject_Z (Qfloor a + 1));
    [apply Qlt_le_weak, Qlt_floor|].
  rewrite <- Zle_Qle.
  rewrite gap_exponent, <- Z.pow_add_r
    by (pose proof (exponent_nonneg a); lia).
  destruct (Z.eq_dec (Qfloor a) 0%Z) as [E|N].
  - rewrite E. pose proof (exponent_nonneg a).
    assert (2 ^ 0 <= 2 ^ (53 + exponent a))%Z by (apply Z.pow_le_mono_r; lia).
    change (2 ^ 0)%Z with 1%Z in *. lia.
  - pose proof (Z.log2_spec (Qfloor a) ltac:(lia)) as [_ S].
    assert (2 ^ Z.succ (Z.log2 (Qfloor a)) <= 2 ^ (53 + exponent a))%Z.
    { apply Z.pow_le_mono_r; [lia|]. unfold exponent. lia. }
    lia.
Qed.

Lemma above_bottom (a : Q) :
  0 <= a -> (0 < exponent a)%Z -> inject_Z (2 ^ 52 * gap a) <= a.
Proof.
  intros H K. pose proof (floor_nonneg a H) as F.
  apply Qle_trans with (inject_Z (Qfloor a)); [|apply Qfloor_le].
  rewrite <- Zle_Qle. rewrite gap_exponent, <- Z.pow_add_r by lia.
  unfold exponent in *.
  assert (P : (0 < Qfloor a)%Z).
  { destruct (Z.eq_dec (Qfloor a) 0%Z) as [E|N]; [|lia].
    rewrite E in K. simpl in K. lia. }
  pose proof (Z.log2_spec (Qfloor a) P) as [S _].
  replace (52 + Z.max 0 (Z.log2 (Qfloor a) - 52))%Z
    with (Z.log2 (Qfloor a)) by lia.
  exact S.
Qed.

Lemma digits_upper (a : Q) : 0 <= a -> (rne (a / inject_Z (gap a)) <= 2 ^ 53)%Z.
Proof.
  intros H. rewrite <- (rne_Z (2 ^ 53)). apply rne_mono.
  apply div_le_inject; [apply gap_pos|apply below_top; exact H].
Qed.

Lemma digits_lower (a : Q) :
  0 <= a -> (0 < exponent a)%Z -> (2 ^ 52 <= rne (a / inject_Z (gap a)))%Z.
Proof.
  intros H K. rewrite <- (rne_Z (2 ^ 52)). apply rne_mono.
  apply inject_le_div; [apply gap_pos|apply above_bottom; assumption].
Qed.

Lemma digits_nonneg (a : Q) : 0 <= a -> (0 <= rne (a / inject_Z (gap a)))%Z.
Proof.
  intros H. apply Z.le_trans with (rne (inject_Z 0)); [rewrite rne_Z; lia|].
  apply rne_mono.
  apply inject_le_div; [apply gap_pos|exact H].
Qed.

Lemma nearest_nonneg (a : Q) : 0 <= a -> (0 <= nearest a)%Z.
Proof.
  intros H. unfold nearest.
  pose proof (digits_nonneg a H). pose proof (gap_pos a). nia.
Qed.

(** Rounding a magnitude is monotone: within one gap as rounding to an
    integer is, and across gaps because the numbers of the smaller gap
    end where those of the larger begin. *)
Lemma nearest_mono (a b : Q) : 0 <= a -> a <= b -> (nearest a <= nearest b)%Z.
Proof.
  intros Ha L. assert (Hb : 0 <= b) by (eapply Qle_trans; eassumption).
  pose proof (exponent_mono a b L) as K.
  destruct (Z.eq_dec (exponent a) (exponent b)) as [E|N].
  - unfold nearest. rewrite !gap_exponent, E.
    apply Z.mul_le_mono_nonneg_r; [apply Z.pow_nonneg; lia|].
    apply rne_mono. apply Qmult_le_compat_r; [exact L|].
    apply Qinv_le_0_compat. apply Qlt_le_weak, inject_pos.
    apply Z.pow_pos_nonneg; [lia|apply exponent_nonneg].
  - pose proof (exponent_nonneg a) as Na0.
    pose proof (digits_upper a Ha) as U.
    pose proof (digits_lower b Hb ltac:(lia)) as D.
    unfold nearest. rewrite !gap_exponent in *.
    pose proof (exponent_nonneg a) as Na.
    assert (P : (2 ^ 53 * 2 ^ exponent a <= 2 ^ 52 * 2 ^ exponent b)%Z).
    { rewrite <- !Z.pow_add_r by lia. apply Z.pow_le_mono_r; lia. }
    assert (Ga : (0 < 2 ^ exponent a)%Z) by (apply Z.pow_pos_nonneg; lia).
    assert (Gb : (0 < 2 ^ exponent b)%Z) by (apply Z.pow_pos_nonneg; lia).
    apply Z.le_trans with (2 ^ 53 * 2 ^ exponent a)%Z;
      [apply Z.mul_le_mono_nonneg_r; lia|].
    apply Z.le_trans with (2 ^ 52 * 2 ^ exponent b)%Z;
      [exact P|apply Z.mul_le_mono_nonneg_r; lia].
Qed.

Lemma nearest_comp (p q : Q) : p == q -> nearest p = nearest q.
Proof.
  intros E. unfold nearest. rewrite !gap_exponent, (exponent_comp _ _ E).
  f_equal. apply rne_comp. rewrite E. reflexivity.
Qed.

Lemma nearest_multiple (m k : Z) :
  (0 <= k)%Z -> exponent (inject_Z (m * 2 ^ k)) = k ->
  nearest (inject_Z (m * 2 ^ k)) = (m * 2 ^ k)%Z.
Proof.
  intros K E. unfold nearest. rewrite gap_exponent, E.
  rewrite (rne_comp _ (inject_Z m)); [rewrite rne_Z; reflexivity|].
  rewrite inject_Z_mult. apply Qdiv_mult_l.
  intros Z0. assert (P : (0 < 2 ^ k)%Z) by (apply Z.pow_pos_nonneg; lia).
  apply inject_pos in P. rewrite Z0 in P. exact (Qlt_irrefl _ P).
Qed.

(** What rounding returns is a binary64 number: rounding keeps it. *)
Lemma nearest_idem (a : Q) :
  0 <= a -> nearest (inject_Z (nearest a)) = nearest a.
Proof.
  intros H. pose proof (digits_upper a H) as U.
  pose proof (digits_nonneg a H) as N.
  pose proof (exponent_nonneg a) as K. pose proof (digits_lower a H) as D.
  change (nearest a) with (rne (a / inject_Z (gap a)) * 2 ^ exponent a)%Z.
  revert U N K D. generalize (rne (a / inject_Z (gap a))) (exponent a).
  intros m k U N K D.
  destruct (Z.eq_dec m 0%Z) as [Z0|NZ]; [rewrite Z0; reflexivity|].
  destruct (Z.eq_dec m (2 ^ 53)%Z) as [T|NT].
  - rewrite T. replace (2 ^ 53 * 2 ^ k)%Z with (2 ^ 52 * 2 ^ (k + 1))%Z
      by (rewrite Z.pow_add_r by lia;
          change (2 ^ 53)%Z with (2 ^ 52 * 2 ^ 1)%Z; ring).
    apply nearest_multiple; [lia|].
    unfold exponent. rewrite Qfloor_Z, Z.log2_mul_pow2 by lia.
    change (Z.log2 (2 ^ 52)) with 52%Z. lia.
  - apply nearest_multiple; [lia|].
    unfold exponent. rewrite Qfloor_Z, Z.log2_mul_pow2 by lia.
    assert (Z.log2 m <= 52)%Z.
    { assert (Z.log2 m < 53)%Z; [|lia]. apply Z.log2_lt_pow2; lia. }
    destruct (Z.eq_dec k 0%Z) as [K0|KP]; [lia|].
    specialize (D ltac:(lia)).
    assert (52 <= Z.log2 m)%Z by (apply Z.log2_le_pow2; lia).
    lia.
Qed.

Lemma round_scaled_comp (p q : Q) : p == q -> round_scaled p = round_scaled q.
Proof.
  intros E. unfold round_scaled.
  assert (B : Qle_bool 0 p = Qle_bool 0 q).
  { destruct (Qle_bool 0 p) eqn:P, (Qle_bool 0 q) eqn:Q0; try reflexivity.
    - apply Qle_bool_iff in P. rewrite E in P. apply Qle_bool_iff in P.
      congruence.
    - apply Qle_bool_iff in Q0. rewrite <- E in Q0. apply Qle_bool_iff in Q0. congruence. }
  rewrite B. destruct (Qle_bool 0 q); [apply nearest_comp; exact E|].
  f_equal. apply nearest_comp. rewrite E. reflexivity.
Qed.

Lemma Qle_bool_false (p q : Q) : Qle_bool p q = false -> q < p.
Proof.
  intros B. apply Qnot_le_lt. intros L. apply Qle_bool_iff in L. congruence.
Qed.

Lemma opp_nonneg (p : Q) : p < 0 -> 0 <= - p.
Proof. intros L. apply Qlt_le_weak in L. apply Qopp_le_compat in L. exact L. Qed.

Lemma round_scaled_mono (p q : Q) : p <= q -> (round_scaled p <= round_scaled q)%Z.
Proof.
  intros L. unfold round_scaled.
  destruct (Qle_bool 0 p) eqn:P, (Qle_bool 0 q) eqn:Q0.
  - apply Qle_bool_iff in P. apply nearest_mono; assumption.
  - apply Qle_bool_iff in P. apply Qle_bool_false in Q0.
    exfalso. exact (Qlt_irrefl _ (Qle_lt_trans _ _ _ (Qle_trans _ _ _ P L) Q0)).
  - apply Qle_bool_false in P. apply Qle_bool_iff in Q0.
    pose proof (nearest_nonneg _ (opp_nonneg _ P)). pose proof (nearest_nonneg _ Q0). lia.
  - apply Qle_bool_false in P. apply Qle_bool_false in Q0.
    pose proof (nearest_mono (- q) (- p) (opp_nonneg _ Q0) (Qopp_le_compat _ _ L)). lia.
Qed.

Lemma round_scaled_idem (p : Q) : round_scaled (inject_Z (round_scaled p)) = round_scaled p.
Proof.
  remember (round_scaled p) as z eqn:Z. unfold round_scaled in *.
  destruct (Qle_bool 0 p) eqn:P.
  - apply Qle_bool_iff in P. pose proof (nearest_nonneg _ P) as N.
    assert (B : Qle_bool 0 (inject_Z z) = true).
    { apply Qle_bool_iff. apply (proj1 (inject_nonneg _)). lia. }
    rewrite B, Z. apply nearest_idem. exact P.
  - apply Qle_bool_false in P. pose proof (nearest_nonneg _ (opp_nonneg _ P)) as N.
    destruct (Z.eq_dec z 0%Z) as [Z0|NZ]; [rewrite Z0; reflexivity|].
    assert (B : Qle_bool 0 (inject_Z z) = false).
    { destruct (Qle_bool 0 (inject_Z z)) eqn:B; [|reflexivity].
      apply Qle_bool_iff in B. apply (proj2 (inject_nonneg _)) in B. lia. }
    rewrite B. rewrite Z at 2. f_equal.
    rewrite (nearest_comp _ (inject_Z (nearest (- p)))) by (rewrite Z, inject_Z_opp; ring).
    apply nearest_idem. apply opp_nonneg. exact P.
Qed.

Lemma unit_pos : 0 < inject_Z (2 ^ unit_exponent).
Proof. reflexivity. Qed.

Lemma scaled_round (q : Q) : scaled (round q) == inject_Z (round_scaled (scaled q)).
Proof.
  unfold round, scaled at 1. rewrite Qred_correct.
  unfold Qdiv. rewrite <- Qmult_assoc, (Qmult_comm (/ _)), Qmult_inv_r, Qmult_1_r; [reflexivity|].
  intros E. pose proof unit_pos as P. rewrite E in P. exact (Qlt_irrefl _ P).
Qed.

(** Rounding is monotone. *)
Lemma round_mono (p q : Q) : p <= q -> round p <= round q.
Proof.
  intros L. unfold round. rewrite !Qred_correct.
  apply Qmult_le_compat_r; [|apply Qinv_le_0_compat, Qlt_le_weak, unit_pos].
  rewrite <- Zle_Qle. apply round_scaled_mono.
  apply Qmult_le_compat_r; [exact L|apply Qlt_le_weak, unit_pos].
Qed.

(** A float is its own rounding. *)
Lemma round_idem (q : Q) : round (round q) = round q.
Proof.
  unfold round at 1. rewrite (round_scaled_comp _ _ (scaled_round q)), round_scaled_idem.
  reflexivity.
Qed.

Lemma round_comp (p q : Q) : p == q -> round p = round q.
Proof.
  intros E. unfold round. apply Qred_complete.
  rewrite (round_scaled_comp (scaled p) (scaled q)); [reflexivity|].
  unfold scaled. rewrite E. reflexivity.
Qed.

Lemma round_0 : round 0 = 0.
Proof. reflexivity. Qed.

(** On the sample numbers, in every pairing, [Float64] computes what the
    processor's binary64 arithmetic computes. *)
Lemma agrees_with_the_processor :
  forallb (fun f => forallb (Binary64.agree f) Binary64.samples)
    Binary64.samples = true
  /\ forallb (fun '(p, q) =>
               Binary64.same
                 (Binary64.value
                    (PrimFloat.div (Binary64.of_Z p) (Binary64.of_Z q)))
                 (round (Qmake p (Z.to_pos q))))
       Binary64.quotients = true.
Proof. split; vm_compute; reflexivity. Qed.

(** Adding a timeout that is not positive to a clock reading gives a
    float that is not above the reading. *)
Lemma add_nonpositive (clock timeout : Q) :
  timeout <= 0 ->
  add (round clock) (round timeout) <= round clock.
Proof.
  intros H. unfold add. rewrite <- (round_idem clock) at 2.
  apply round_mono. apply round_mono in H. rewrite round_0 in H. lra.
Qed.

(** The float difference of two readings of a clock that did not run
    backwards is not negative, and neither is its float product with a
    number that is not negative. *)
Lemma sub_nonneg (a b : Q) : a <= b -> 0 <= sub b a.
Proof.
  intros H. unfold sub. rewrite <- round_0. apply round_mono. lra.
Qed.

Lemma mul_nonneg (a b : Q) : 0 <= a -> 0 <= b -> 0 <= mul a b.
Proof.
  intros Ha Hb. unfold mul. rewrite <- round_0. apply round_mono.
  apply Qmult_le_0_compat; assumption.
Qed.

End Float64Facts.

(** ** Trimming *)

Module PyStrFacts.
Import PyStr Trimming.

Lemma lstrip_starts_clean s : starts_clean (lstrip s).
Proof.
  induction s as [|c s IH]; simpl; [exact I|].
  destruct (isspace c) eqn:E; [exact IH | exact E].
Qed.

Lemma lstrip_clean s : starts_clean s -> lstrip s = s.
Proof. destruct s as [|c s]; simpl; [reflexivity|]. now intros ->. Qed.

Lemma rstrip_starts_clean s : starts_clean s -> starts_clean (rstrip s).
Proof.
  destruct s as [|c s]; simpl; [exact id|]. intros E.
  destruct (rstrip s); [rewrite E|]; exact E.
Qed.

Lemma rstrip_idem s : rstrip (rstrip s) = rstrip s.
Proof.
  induction s as [|c s IH]; simpl; [reflexivity|].
  destruct (rstrip s) as [|d r] eqn:E.
  - destruct (isspace c) eqn:Ec; simpl; [reflexivity | now rewrite Ec].
  - change (rstrip (String c (String d r))) with
      (match rstrip (String d r) with
       | EmptyString =>
           if isspace c then EmptyString else String c EmptyString
       | r' => String c r'
       end).
    now rewrite IH.
Qed.

Lemma strip_idem s : strip (strip s) = strip s.
Proof.
  unfold strip.
  rewrite (lstrip_clean (rstrip (lstrip s))).
  - apply rstrip_idem.
  - apply rstrip_starts_clean, lstrip_starts_clean.
Qed.

Lemma truthy_true s : truthy s = true <-> s <> EmptyString.
Proof. destruct s; simpl; split; congruence. Qed.

Lemma truthy_false s : truthy s = false <-> s = EmptyString.
Proof. destruct s; simpl; split; congruence. Qed.


End PyStrFacts.

(** ** The content extractor *)

Module ExtractorFacts.
Import PyStr VLLMClientHelpers Extractor PyStrFacts.

Lemma for_each_append_text_part items : forall parts,
  for_each append_text_part parts items
  = Return (parts ++ text_fields items)%list.
Proof.
  induction items as [|item items IH]; intros parts; simpl.
  - now rewrite app_nil_r.
  - unfold append_text_part at 1.
    destruct item as [| | | | |l|o]; simpl; try apply IH.
    unfold text_fields in *. simpl.
    destruct (o !! "text") as [[| | | |t| |]|]; simpl; try apply IH.
    rewrite IH, <- app_assoc. reflexivity.
Qed.

(** The extractor on a dict, as the first strategy that gives a text. *)
Lemma extract_object (result : gmap string jvalue) :
  _extract_message_content (JObject result) =
  match result !! "choices" with
  | Some (JList (head :: _)) =>
      let first_choice := first_choice_of head in
      match string_strategy first_choice with
      | Some s => Return s
      | None =>
          match list_strategy first_choice with
          | Some s => Return s
          | None =>
              match text_strategy first_choice with
              | Some s => Return s
              | None => Raise (EVLLMError unsupported_format)
              end
          end
      end
  | _ => Raise (EVLLMError no_choices)
  end.
Proof.
  unfold _extract_message_content. cbn [Py.get rbind].
  destruct (result !! "choices") as [[| | | | |[|head choices]|]|];
    try reflexivity.
  cbn [from_option id Py.isinstance_list Py.truthy negb orb Py.getitem0
       rbind].
  assert (Hfirst :
    (if Py.isinstance_dict head then Return head else Return (JObject ∅))
    = Return (JObject (first_choice_of head))) by (now destruct head).
  rewrite Hfirst. cbn [rbind Py.isinstance_dict Py.get].
  generalize (first_choice_of head). intros fc.
  unfold string_strategy, list_strategy, text_strategy, content_of.
  destruct (default (JObject ∅) (fc !! "message")) as [| | | | | |msg];
    cbn [rbind Py.isinstance_dict Py.get]; try reflexivity.
  destruct (default (JString "") (msg !! "content"))
    as [| | | |s|items|o]; cbn [rbind];
    try (destruct (fc !! "text") as [[]|]; reflexivity).
  rewrite for_each_append_text_part. cbn [rbind app].
  change (String LF "") with nl.
  destruct (truthy (strip (join nl (text_fields items)))); cbn [rbind];
    [reflexivity|].
  destruct (fc !! "text") as [[]|]; reflexivity.
Qed.

(** Whatever the extractor returns is trimmed. *)
Lemma extract_trimmed (result : jvalue) (s : string) :
  _extract_message_content result = Return s -> strip s = s.
Proof.
  destruct result as [| | | | | |m]; try discriminate.
  rewrite extract_object.
  destruct (m !! "choices") as [[| | | | |[|head ?]|]|]; try discriminate.
  cbv zeta. generalize (first_choice_of head). intros fc.
  unfold string_strategy, list_strategy, text_strategy.
  destruct (content_of fc) as [| | | |c|items|];
    try destruct (truthy _);
    try destruct (fc !! "text") as [[]|];
    try discriminate; intros [= <-]; apply strip_idem.
Qed.

(** When [message] or its [content] is absent the extractor goes on with
    the empty string, which is a string: it returns at once. *)
Lemma absent_content_returns_empty
  (result first : gmap string jvalue) (rest : list jvalue) :
  result !! "choices" = Some (JList (JObject first :: rest)) ->
  first !! "message" = None
  \/ (exists msg, first !! "message" = Some (JObject msg)
                  /\ msg !! "content" = None) ->
  _extract_message_content (JObject result) = Return "".
Proof.
  intros Hc Habs. rewrite extract_object, Hc. cbv zeta.
  unfold string_strategy, content_of, first_choice_of.
  destruct Habs as [-> | (msg & -> & Hcontent)]; [reflexivity|].
  cbn [from_option id]. rewrite Hcontent. reflexivity.
Qed.

(** C4: when the first choice's [message.content] is a string [s] the
    extractor returns [s] trimmed; when it is a list, the extractor joins
    the string-valued ["text"] members of its elements with newlines,
    skipping every element without one, trims the result and returns it
    if it is not empty; if it is empty the list is not used and the
    choice's own ["text"] decides. *)
Theorem content_string_or_list
  (result first msg : gmap string jvalue) (rest : list jvalue) :
  result !! "choices" = Some (JList (JObject first :: rest)) ->
  first !! "message" = Some (JObject msg) ->
  (forall s, msg !! "content" = Some (JString s) ->
     _extract_message_content (JObject result) = Return (strip s))
  /\ (forall items, msg !! "content" = Some (JList items) ->
       strip (join nl (text_fields items)) <> "" ->
       _extract_message_content (JObject result)
       = Return (strip (join nl (text_fields items))))
  /\ (forall items, msg !! "content" = Some (JList items) ->
       strip (join nl (text_fields items)) = "" ->
       _extract_message_content (JObject result)
       = match first !! "text" with
         | Some (JString t) => Return (strip t)
         | _ => Raise (EVLLMError unsupported_format)
         end).
Proof.
  intros Hc Hm. rewrite extract_object, Hc. cbv zeta.
  unfold string_strategy, list_strategy, text_strategy, content_of,
    first_choice_of.
  rewrite Hm. cbn [from_option id].
  split; [|split].
  - intros s ->. reflexivity.
  - intros items -> Hne. cbn [from_option id].
    apply truthy_true in Hne. rewrite Hne. reflexivity.
  - intros items -> He. cbn [from_option id].
    apply truthy_false in He. rewrite He.
    destruct (first !! "text") as [[]|]; reflexivity.
Qed.

Lemma content_string_or_list_witness :
  _extract_message_content (JObject hello_response) = Return "Hello"
  /\ _extract_message_content (JObject a_b_response)
     = Return ("A" +:+ nl +:+ "B").
Proof.
  split.
  - exact (proj1 (content_string_or_list hello_response
                    {[ "message" := JObject {[ "content" := JString "Hello" ]} ]}
                    {[ "content" := JString "Hello" ]} []
                    eq_refl eq_refl) "Hello" eq_refl).
  - refine (proj1 (proj2 (content_string_or_list a_b_response
                    {[ "message" := JObject {[ "content" := JList a_b_content ]} ]}
                    {[ "content" := JList a_b_content ]} []
                    eq_refl eq_refl)) a_b_content eq_refl _).
    vm_compute. discriminate.
Defined.

(** C3, at the response of a text-completion backend: the choice has a
    ["text"] and no ["message"], and the extractor returns the empty
    string instead of the text. With a ["message"] whose [content] is
    [null] beside it, the same ["text"] is returned. *)
Theorem text_only_choice_yields_empty :
  _extract_message_content
    (JObject {[ "choices" := JList [
                  JObject {[ "text" := JString "hello" ]} ] ]})
  = Return ""
  /\ _extract_message_content
       (JObject {[ "choices" := JList [
                     JObject {[ "text" := JString "hello";
                                "message" :=
                                  JObject {[ "content" := JNull ]} ]} ] ]})
     = Return "hello".
Proof. split; vm_compute; reflexivity. Qed.

(** C2, at a response whose first choice has no completion in it: an
    empty object, or one whose ["message"] has no ["content"]. There is
    no string content, no list content and no ["text"], so none of the
    three strategies has a text to give; the extractor returns the empty
    string all the same, and raises nothing. *)
Theorem empty_choice_is_not_rejected :
  _extract_message_content
    (JObject {[ "choices" := JList [JObject ∅] ]})
  = Return ""
  /\ _extract_message_content
       (JObject {[ "choices" := JList [
                     JObject {[ "message" := JObject ∅ ]} ] ]})
     = Return ""
  /\ ~ malformed_response
         (_extract_message_content
            (JObject {[ "choices" := JList [JObject ∅] ]})).
Proof.
  split; [vm_compute; reflexivity|]. split; [vm_compute; reflexivity|].
  intros (e & H & _). vm_compute in H. discriminate H.
Qed.

(** The two raise sites of the extractor. On a parsed response (a dict)
    whose ["choices"] is missing, is not a list or is an empty list, and
    on one where none of the three branches of the code gives a text, the
    extractor raises a [VLLMError] with the default class tag and no
    backend status code; and it fails in no other way. The first branch
    is taken on the content the code reads, which is the empty string
    when ["message"] or its ["content"] is absent. *)
Theorem extraction_failure_is_malformed_response
  (result : gmap string jvalue) :
  (result !! "choices" = None
   \/ (exists c, result !! "choices" = Some c
                 /\ (Py.isinstance_list c = false \/ c = JList [])) ->
   malformed_response (_extract_message_content (JObject result)))
  /\ (forall head rest,
        result !! "choices" = Some (JList (head :: rest)) ->
        string_strategy (first_choice_of head) = None ->
        list_strategy (first_choice_of head) = None ->
        text_strategy (first_choice_of head) = None ->
        malformed_response (_extract_message_content (JObject result)))
  /\ (forall x,
        _extract_message_content (JObject result) = Raise x ->
        malformed_response (_extract_message_content (JObject result))).
Proof.
  assert (Hno : malformed_response (Raise (EVLLMError no_choices)))
    by (eexists; repeat split).
  assert (Hun : malformed_response (Raise (EVLLMError unsupported_format)))
    by (eexists; repeat split).
  rewrite extract_object. split; [|split].
  - intros [-> | (c & -> & [Hc | ->])]; try exact Hno.
    destruct c as [| | | | |l|]; try exact Hno. discriminate.
  - intros head rest -> Hs Hl Ht. cbv zeta. rewrite Hs, Hl, Ht. exact Hun.
  - intros x.
    destruct (result !! "choices") as [[| | | | |[|head ?]|]|];
      try (intros _; exact Hno).
    cbv zeta.
    destruct (string_strategy _); [discriminate|].
    destruct (list_strategy _); [discriminate|].
    destruct (text_strategy _); [discriminate|].
    intros _. exact Hun.
Qed.

Lemma extraction_failure_is_malformed_response_witness :
  malformed_response (_extract_message_content (JObject ∅))
  /\ malformed_response
       (_extract_message_content (JObject {[ "choices" := JList [] ]}))
  /\ malformed_response
       (_extract_message_content
          (JObject {[ "choices" := JList [
               JObject {[ "message" :=
                            JObject {[ "content" := JNull ]} ]} ] ]})).
Proof.
  split; [|split].
  - apply (proj1 (extraction_failure_is_malformed_response ∅)).
    left. reflexivity.
  - apply (proj1 (extraction_failure_is_malformed_response
                    {[ "choices" := JList [] ]})).
    right. exists (JList []). split; [reflexivity | right; reflexivity].
  - apply (proj1 (proj2 (extraction_failure_is_malformed_response
              {[ "choices" := JList [
                   JObject {[ "message" :=
                                JObject {[ "content" := JNull ]} ]} ] ]}))
             (JObject {[ "message" := JObject {[ "content" := JNull ]} ]})
             []); reflexivity.
Defined.

(** At a parsed body that is not a dict [result.get] raises. *)
Lemma extract_raises_on_array :
  _extract_message_content (JList []) = Raise (AttributeError "list")
  /\ ~ ((exists s, _extract_message_content (JList []) = Return s)
        \/ (exists e,
              _extract_message_content (JList []) = Raise (EVLLMError e))).
Proof.
  split; [reflexivity|].
  intros [[s H] | [e H]]; discriminate H.
Qed.

(** On every parsed dict, whatever the shape of its members, the
    extractor returns a string or raises a [VLLMError]; it raises no
    exception of another class. Handed a value that is not a dict, it
    raises [AttributeError]. *)
Theorem extract_total_on_dicts :
  (forall result : gmap string jvalue,
     (exists s, _extract_message_content (JObject result) = Return s)
     \/ (exists e,
           _extract_message_content (JObject result)
           = Raise (EVLLMError e)))
  /\ (forall v : jvalue,
        Py.isinstance_dict v = false <->
        _extract_message_content v
        = Raise (AttributeError (Py.type_name v))).
Proof.
  split.
  - intros result. rewrite extract_object.
    destruct (result !! "choices") as [[| | | | |[|head ?]|]|];
      try (right; eexists; reflexivity).
    cbv zeta.
    destruct (string_strategy _); [left; eexists; reflexivity|].
    destruct (list_strategy _); [left; eexists; reflexivity|].
    destruct (text_strategy _); [left; eexists; reflexivity|].
    right; eexists; reflexivity.
  - intros v. split.
    + destruct v; try reflexivity. discriminate.
    + destruct v as [| | | | | |m]; try reflexivity.
      rewrite extract_object. intros H. exfalso.
      destruct (m !! "choices") as [[| | | | |[|head ?]|]|];
        try discriminate H.
      cbv zeta in H.
      destruct (string_strategy _); [discriminate|].
      destruct (list_strategy _); [discriminate|].
      destruct (text_strategy _); discriminate.
Qed.


End ExtractorFacts.

(** ** The error-message extractor *)

Module ErrorMessageFacts.
Import PyStr VLLMClientHelpers ErrorMessagePolicy PyStrFacts.

Lemma non_blank_truthy s :
  non_blank (JString s)
  = if truthy (strip s) then Some (strip s) else None.
Proof.
  unfold non_blank. destruct (decide (strip s = "")) as [E|E].
  - now rewrite E.
  - apply truthy_true in E. now rewrite E.
Qed.

(** C6: the error-message extractor is the ordered, first-match-wins
    policy: the trimmed non-blank string ["message"] of an object under
    ["error"], else the trimmed non-blank top-level string ["message"],
    else the first 500 characters of the raw text; and the raw text at
    once when the body does not parse as JSON. *)
Theorem extract_error_message_follows_policy (response : Response) :
  _extract_error_message response = error_message_policy response.
Proof.
  unfold _extract_error_message, error_message_policy, raw_text_fallback.
  destruct (json response) as [exc|body]; [reflexivity|].
  destruct body as [| | | | | |p]; try reflexivity.
  cbn [first_match]. unfold error_object_message, top_level_message.
  cbn [member].
  assert (Htop :
    match from_option id JNull (p !! "message") with
    | JString message0 =>
        if truthy (strip message0) then strip message0
        else slice_to 500 (text response)
    | _ => slice_to 500 (text response)
    end
    = default (slice_to 500 (text response))
        match p !! "message" ≫= non_blank with
        | Some b => Some b
        | None => None
        end).
  { destruct (p !! "message") as [v|]; [|reflexivity].
    cbn [from_option id mbind option_bind].
    destruct v; try reflexivity.
    rewrite non_blank_truthy. now destruct (truthy _). }
  destruct (p !! "error") as [[| | | | | |e]|]; cbn [from_option id];
    try exact Htop.
  destruct (e !! "message") as [v|]; cbn [from_option id mbind option_bind];
    [|exact Htop].
  destruct v; try exact Htop.
  rewrite non_blank_truthy.
  destruct (truthy _); [reflexivity | exact Htop].
Qed.


End ErrorMessageFacts.

(** ** The completion call *)

Module CompletionFacts.
Import PyStr VLLMClientHelpers Extractor Completion PyStrFacts
  ExtractorFacts.

Lemma chat_completion_responded env payload w response :
  backend env (trace w) (POST completions payload) = Responded response ->
  fst (_chat_completion env payload w) =
    if (400 <=? status_code response)%Z
    then Raise (EVLLMError (http_error env w response))
    else match json response with
         | inl exc =>
             Raise (EVLLMError
                      {| message := "vLLM returned invalid JSON.";
                         detail := Some (exc_str exc);
                         backend_status_code := Some (status_code response);
                         backend_error_class := exc_class exc;
                         backend_latency_ms :=
                           Some (measured_latency env w) |})
         | inr data => Return data
         end.
Proof.
  intros Hb.
  unfold _chat_completion, bind, perform, send, time_perf_counter, raise,
    ret.
  cbn [trace perf_counter_reads monotonic_reads fst snd].
  fold completions. rewrite Hb.
  destruct (400 <=? status_code response)%Z; [reflexivity|].
  destruct (json response); reflexivity.
Qed.

Lemma run_ocr_bind settings env image_data_url w :
  fst (run_ocr settings env image_data_url w) =
    (data <~ fst (_chat_completion env
                    (_build_payload settings (ocr_prompt settings)
                       image_data_url (max_tokens settings)) w);
     _extract_message_content data).
Proof.
  unfold run_ocr, bind, lift.
  destruct (_chat_completion _ _ _) as [[data|x] w']; reflexivity.
Qed.





Lemma run_ocr_extracts settings env image_data_url w response data :
  backend env (trace w) (ocr_request settings image_data_url)
  = Responded response ->
  (status_code response < 400)%Z ->
  json response = inr data ->
  fst (run_ocr settings env image_data_url w)
  = _extract_message_content data.
Proof.
  intros Hb Hs Hj. rewrite run_ocr_bind.
  rewrite (chat_completion_responded _ _ _ _ Hb).
  apply Z.leb_gt in Hs. rewrite Hs, Hj. reflexivity.
Qed.

(** C1, at a completion whose content is the empty string: the call
    succeeds, and what it returns is the empty string. *)
Lemma run_ocr_empty_success :
  fst (run_ocr settings0 (answers empty_content)
         tiny_image start)
  = Return "".
Proof. vm_compute. reflexivity. Qed.

(** C10, at a backend that answers the completion request with status
    200 and the JSON body [[]]: [run_ocr] hands the parsed list to the
    extractor, whose first step [result.get("choices", [])] raises
    [AttributeError], which is neither a string nor a [VLLMError]. The
    error-message extractor tests [isinstance(payload, dict)] first and
    falls back to the raw text on the same body. *)
Theorem array_body_raises_attribute_error :
  fst (run_ocr settings0 (answers (JList [])) tiny_image start)
  = Raise (AttributeError "list")
  /\ _extract_message_content (JList []) = Raise (AttributeError "list")
  /\ is_VLLMError (AttributeError "list") = false
  /\ _extract_error_message
       {| status_code := 500; text := "[]"; json := inr (JList []) |}
     = "[]".
Proof. repeat split; vm_compute; reflexivity. Qed.

(** C1, as the code has it: what a successful [run_ocr] returns is
    trimmed, and it can be empty. With a [message.content] that is present
    in the first choice: a string is returned trimmed, whatever is left of
    it; a text joined from a list is returned only when it is not empty;
    failing both, a string ["text"] of the choice is returned trimmed; and
    with none of the three the call fails with a [VLLMError]. *)
Theorem run_ocr_returns_trimmed_text
  (settings : Settings) (env : Env) (image_data_url : string) (w : World) :
  (forall s, fst (run_ocr settings env image_data_url w) = Return s ->
             strip s = s)
  /\ (forall response result first rest msg content,
        backend env (trace w) (ocr_request settings image_data_url)
        = Responded response ->
        (status_code response < 400)%Z ->
        json response = inr (JObject result) ->
        result !! "choices" = Some (JList (JObject first :: rest)) ->
        first !! "message" = Some (JObject msg) ->
        msg !! "content" = Some content ->
        match content with
        | JString s =>
            fst (run_ocr settings env image_data_url w) = Return (strip s)
        | _ =>
            match list_strategy first with
            | Some combined =>
                fst (run_ocr settings env image_data_url w)
                = Return combined
                /\ combined <> ""
            | None =>
                match first !! "text" with
                | Some (JString t) =>
                    fst (run_ocr settings env image_data_url w)
                    = Return (strip t)
                | _ =>
                    exists e,
                      fst (run_ocr settings env image_data_url w)
                      = Raise (EVLLMError e)
                end
            end
        end).
Proof.
  split.
  - intros s. rewrite run_ocr_bind.
    destruct (fst (_chat_completion _ _ _)) as [data|x]; [|discriminate].
    apply extract_trimmed.
  - intros response result first rest msg content Hb Hs Hj Hc Hm Hk.
    rewrite (run_ocr_extracts _ _ _ _ _ _ Hb Hs Hj).
    rewrite extract_object, Hc. cbv zeta.
    assert (Hcontent : content_of first = content).
    { unfold content_of. rewrite Hm. cbn [from_option id]. now rewrite Hk. }
    unfold string_strategy, text_strategy, first_choice_of.
    assert (Hlist : forall combined,
              list_strategy first = Some combined -> combined <> "").
    { unfold list_strategy. intros combined.
      destruct (content_of first); try discriminate.
      destruct (truthy _) eqn:E; [|discriminate].
      intros [= <-]. now apply truthy_true. }
    destruct (list_strategy first) as [combined|] eqn:El.
    + specialize (Hlist combined eq_refl).
      unfold list_strategy in El. rewrite Hcontent in *.
      destruct content; try discriminate El. split; [reflexivity|exact Hlist].
    + rewrite Hcontent.
      destruct content; try reflexivity;
        destruct (first !! "text") as [[]|]; try reflexivity;
        eexists; reflexivity.
Qed.

Lemma run_ocr_returns_trimmed_text_witness :
  fst (run_ocr settings0 (answers (JObject blank_content))
         tiny_image start) = Return ""
  /\ fst (run_ocr settings0 (answers (JObject a_b_response))
            tiny_image start)
     = Return ("A" +:+ nl +:+ "B")
  /\ exists e,
       fst (run_ocr settings0 (answers (JObject null_content))
              tiny_image start)
       = Raise (EVLLMError e).
Proof.
  split; [|split].
  - refine (proj2 (run_ocr_returns_trimmed_text settings0
              (answers (JObject blank_content))
              tiny_image start)
              _ blank_content
              {[ "message" := JObject {[ "content" := JString "  " ]} ]} []
              {[ "content" := JString "  " ]} (JString "  ")
              eq_refl _ eq_refl eq_refl eq_refl eq_refl).
    vm_compute. reflexivity.
  - refine (proj1 (proj2 (run_ocr_returns_trimmed_text settings0
              (answers (JObject a_b_response))
              tiny_image start)
              _ a_b_response
              {[ "message" := JObject {[ "content" := JList a_b_content ]} ]}
              [] {[ "content" := JList a_b_content ]} (JList a_b_content)
              eq_refl _ eq_refl eq_refl eq_refl eq_refl)).
    vm_compute. reflexivity.
  - refine (proj2 (run_ocr_returns_trimmed_text settings0
              (answers (JObject null_content))
              tiny_image start)
              _ null_content
              {[ "message" := JObject {[ "content" := JNull ]} ]} []
              {[ "content" := JNull ]} JNull
              eq_refl _ eq_refl eq_refl eq_refl eq_refl).
    vm_compute. reflexivity.
Defined.


End CompletionFacts.

(** ** The readiness prober *)

Module ReadinessFacts.
Import PyStr Completion Readiness.

Lemma Qltb_lt a b : Qltb a b = true <-> (a < b)%Q.
Proof.
  unfold Qltb. rewrite negb_true_iff. split.
  - intros H. apply Qnot_le_lt. intros Hle.
    apply Qle_bool_iff in Hle. congruence.
  - intros H. destruct (Qle_bool b a) eqn:E; [|reflexivity].
    apply Qle_bool_iff in E. exfalso. exact (Qlt_not_le _ _ H E).
Qed.

Lemma Qltb_ge a b : Qltb a b = false <-> (b <= a)%Q.
Proof.
  unfold Qltb. rewrite negb_false_iff. apply Qle_bool_iff.
Qed.

Lemma wait_loop_deadline env fuel deadline last_error w :
  (deadline <= now env w)%Q ->
  wait_loop env (S fuel) deadline last_error w
  = Some (Raise (EVLLMTimeoutError (startup_timeout last_error)),
          clock_read w).
Proof.
  intros H. apply Qltb_ge in H. cbn [wait_loop time_monotonic].
  unfold now in H. rewrite H. reflexivity.
Qed.

Lemma wait_loop_probe env fuel deadline last_error w :
  (now env w < deadline)%Q ->
  wait_loop env (S fuel) deadline last_error w
  = match backend env (trace w) models with
    | Responded response =>
        if (status_code response =? 200)%Z
        then Some (Return tt, after_turn w [Request models])
        else wait_loop env fuel deadline (Some (probe_failed response))
               (after_turn w [Request models; Sleep 1])
    | Failed _ exc =>
        wait_loop env fuel deadline (Some (probe_error exc))
          (after_turn w [Request models; Sleep 1])
    end.
Proof.
  intros H. apply Qltb_lt in H. cbn [wait_loop time_monotonic].
  unfold now in H. rewrite H.
  unfold send, asyncio_sleep, after_turn.
  cbn [trace monotonic_reads perf_counter_reads]. fold models.
  rewrite <- !app_assoc. cbn [app].
  destruct (backend env (trace w) models) as [response|? exc];
    [destruct (status_code response =? 200)%Z|]; reflexivity.
Qed.

(** C7: the prober sets its deadline to the float sum of the clock
    reading and the configured timeout. In a turn that starts before the deadline it
    sends the model-listing GET: on status 200 it returns at once, with
    no sleep; on another status, or on an exception, it keeps a
    description of what it saw as the last error, sleeps one second and
    goes round again. In a turn that starts at or after the deadline it
    raises a [VLLMTimeoutError] with the class tag
    ["vllm_startup_timeout"] and the last error as detail. *)
Theorem readiness_prober_turns (settings : Settings) (env : Env) :
  (forall fuel w,
     _wait_until_ready settings env fuel w
     = wait_loop env fuel
         (Float64.add (now env w)
            (Float64.round (vllm_startup_timeout_seconds settings)))
         None (clock_read w))
  /\ (forall fuel deadline last_error w response,
        (now env w < deadline)%Q ->
        backend env (trace w) models = Responded response ->
        status_code response = 200%Z ->
        wait_loop env (S fuel) deadline last_error w
        = Some (Return tt, after_turn w [Request models]))
  /\ (forall fuel deadline last_error w response,
        (now env w < deadline)%Q ->
        backend env (trace w) models = Responded response ->
        status_code response <> 200%Z ->
        wait_loop env (S fuel) deadline last_error w
        = wait_loop env fuel deadline
            (Some ("vLLM readiness probe failed with HTTP "
                   +:+ pretty (status_code response) +:+ ": "
                   +:+ slice_to 400 (text response)))
            (after_turn w [Request models; Sleep 1]))
  /\ (forall fuel deadline last_error w timeout exc,
        (now env w < deadline)%Q ->
        backend env (trace w) models = Failed timeout exc ->
        wait_loop env (S fuel) deadline last_error w
        = wait_loop env fuel deadline
            (Some ("vLLM readiness probe error: " +:+ exc_class exc
                   +:+ ": " +:+ exc_str exc))
            (after_turn w [Request models; Sleep 1]))
  /\ (forall fuel deadline last_error w,
        (deadline <= now env w)%Q ->
        wait_loop env (S fuel) deadline last_error w
        = Some (Raise (EVLLMTimeoutError
                  {| message :=
                       "Timed out waiting for local vLLM server readiness.";
                     detail := last_error;
                     backend_status_code := None;
                     backend_error_class := "vllm_startup_timeout";
                     backend_latency_ms := None |}),
                clock_read w)).
Proof.
  repeat split.
  - intros fuel deadline last_error w response Hlt Hb Hs.
    rewrite (wait_loop_probe _ _ _ _ _ Hlt), Hb, Hs. reflexivity.
  - intros fuel deadline last_error w response Hlt Hb Hs.
    rewrite (wait_loop_probe _ _ _ _ _ Hlt), Hb.
    apply Z.eqb_neq in Hs. rewrite Hs. reflexivity.
  - intros fuel deadline last_error w timeout exc Hlt Hb.
    rewrite (wait_loop_probe _ _ _ _ _ Hlt), Hb. reflexivity.
  - intros fuel deadline last_error w Hge.
    apply wait_loop_deadline, Hge.
Qed.

Lemma readiness_prober_turns_witness :
  _wait_until_ready settings0 booting 5 start
  = Some (Raise (EVLLMTimeoutError
            {| message :=
                 "Timed out waiting for local vLLM server readiness.";
               detail :=
                 Some ("vLLM readiness probe error: ConnectError: "
                       +:+ "All connection attempts failed");
               backend_status_code := None;
               backend_error_class := "vllm_startup_timeout";
               backend_latency_ms := None |}),
          {| monotonic_reads := 4; perf_counter_reads := 0;
             trace := [Request models; Sleep 1; Request models; Sleep 1] |})
  /\ _wait_until_ready patient booting 5 start
     = Some (Return tt,
             {| monotonic_reads := 4; perf_counter_reads := 0;
                trace := [Request models; Sleep 1; Request models; Sleep 1;
                          Request models] |})
  /\ _wait_until_ready brief tenths 5 start
     = Some (Raise (EVLLMTimeoutError
               {| message :=
                    "Timed out waiting for local vLLM server readiness.";
                  detail := None;
                  backend_status_code := None;
                  backend_error_class := "vllm_startup_timeout";
                  backend_latency_ms := None |}),
             {| monotonic_reads := 2; perf_counter_reads := 0;
                trace := [] |}).
Proof.
  destruct (readiness_prober_turns settings0 booting)
    as (Hstart & _ & Hstatus & Hexc & Hdeadline).
  destruct (readiness_prober_turns patient booting)
    as (Hstart' & Hready & Hstatus' & Hexc' & _).
  destruct (readiness_prober_turns brief tenths)
    as (Hstart'' & _ & _ & _ & Hdeadline'').
  split; [|split].
  - rewrite Hstart.
    rewrite (Hstatus 4%nat _ None (clock_read start) loading);
      [|vm_compute; reflexivity|reflexivity|discriminate].
    rewrite (Hexc 3%nat _ _ _ false refused);
      [|vm_compute; reflexivity|reflexivity].
    rewrite Hdeadline; [reflexivity|vm_compute; discriminate].
  - rewrite Hstart'.
    rewrite (Hstatus' 4%nat _ None (clock_read start) loading);
      [|vm_compute; reflexivity|reflexivity|discriminate].
    rewrite (Hexc' 3%nat _ _ _ false refused);
      [|vm_compute; reflexivity|reflexivity].
    rewrite (Hready 2%nat _ _ _ ready);
      [reflexivity|vm_compute; reflexivity|reflexivity|reflexivity].
  - rewrite Hstart''.
    rewrite Hdeadline''; [reflexivity|vm_compute; discriminate].
Defined.

(** C8: with a timeout of zero or less the deadline has passed when the
    loop first looks at the clock, which does not run backwards: the
    prober raises the startup-timeout error at once, without a detail,
    and has sent no request and slept no second. *)
Theorem nonpositive_timeout_fails_at_once
  (settings : Settings) (env : Env) (fuel : nat) (w : World) :
  (vllm_startup_timeout_seconds settings <= 0)%Q ->
  (monotonic env (monotonic_reads w)
   <= monotonic env (S (monotonic_reads w)))%Q ->
  _wait_until_ready settings env (S fuel) w
  = Some (Raise (EVLLMTimeoutError
            {| message :=
                 "Timed out waiting for local vLLM server readiness.";
               detail := None;
               backend_status_code := None;
               backend_error_class := "vllm_startup_timeout";
               backend_latency_ms := None |}),
          {| monotonic_reads := S (S (monotonic_reads w));
             perf_counter_reads := perf_counter_reads w;
             trace := trace w |}).
Proof.
  intros Hto Hmono.
  unfold _wait_until_ready. cbn [time_monotonic].
  rewrite wait_loop_deadline; [reflexivity|].
  unfold now. cbn [monotonic_reads].
  eapply Qle_trans; [|exact Hmono].
  apply Float64Facts.add_nonpositive, Hto.
Qed.

Lemma nonpositive_timeout_fails_at_once_witness :
  _wait_until_ready impatient (env_of (Responded ready)) 1 start
  = Some (Raise (EVLLMTimeoutError
            {| message :=
                 "Timed out waiting for local vLLM server readiness.";
               detail := None;
               backend_status_code := None;
               backend_error_class := "vllm_startup_timeout";
               backend_latency_ms := None |}),
          {| monotonic_reads := 2; perf_counter_reads := 0; trace := [] |}).
Proof.
  apply (nonpositive_timeout_fails_at_once impatient
           (env_of (Responded ready)) 0 start); vm_compute; discriminate.
Defined.

Lemma after_turn_attempts w n :
  (trace (after_turn w [Request models; Sleep 1]) ++ attempts n
   = trace w ++ attempts (S n))%list.
Proof. cbn [after_turn trace attempts]. now rewrite <- app_assoc. Qed.

(** When the backend answers 200 to the attempt after [n] failed ones,
    and the clock is before the deadline at each of them, the prober
    returns after exactly these [n + 1] requests and [n] sleeps of one
    second. *)
Lemma ready_on_nth_attempt env deadline : forall n fuel last_error w response,
  (forall i, (i < n)%nat ->
     not_ready (backend env (trace w ++ attempts i) models)) ->
  backend env (trace w ++ attempts n) models = Responded response ->
  status_code response = 200%Z ->
  (forall i, (i <= n)%nat ->
     (monotonic env (monotonic_reads w + i) < deadline)%Q) ->
  (n < fuel)%nat ->
  wait_loop env fuel deadline last_error w
  = Some (Return tt,
          {| monotonic_reads := monotonic_reads w + S n;
             perf_counter_reads := perf_counter_reads w;
             trace := trace w ++ attempts n ++ [Request models] |}).
Proof.
  induction n as [|n IH]; intros fuel last_error w response Hfail Hok Hs
    Hclock Hfuel;
    (destruct fuel as [|fuel]; [lia|]);
    (rewrite wait_loop_probe;
       [|unfold now; rewrite <- (Nat.add_0_r (monotonic_reads w));
         apply Hclock; lia]).
  - cbn [attempts] in Hok. rewrite app_nil_r in Hok. rewrite Hok, Hs.
    cbn [Z.eqb Pos.eqb]. unfold after_turn. cbn [attempts app].
    now rewrite Nat.add_1_r.
  - assert (Hnext :
      wait_loop env fuel deadline
        match backend env (trace w) models with
        | Responded r => Some (probe_failed r)
        | Failed _ exc => Some (probe_error exc)
        end
        (after_turn w [Request models; Sleep 1])
      = Some (Return tt,
              {| monotonic_reads := monotonic_reads w + S (S n);
                 perf_counter_reads := perf_counter_reads w;
                 trace := trace w ++ attempts (S n) ++ [Request models] |})).
    { rewrite (IH fuel _ (after_turn w [Request models; Sleep 1]) response).
      - cbn [after_turn monotonic_reads perf_counter_reads trace attempts].
        rewrite <- app_assoc. cbn [app]. do 3 f_equal. lia.
      - intros i Hi. rewrite after_turn_attempts. apply Hfail. lia.
      - rewrite after_turn_attempts. exact Hok.
      - exact Hs.
      - intros i Hi. cbn [after_turn monotonic_reads].
        replace (S (monotonic_reads w) + i)%nat
          with (monotonic_reads w + S i)%nat by lia.
        apply Hclock. lia.
      - lia. }
    specialize (Hfail O ltac:(lia)). cbn [attempts] in Hfail.
    rewrite app_nil_r in Hfail.
    destruct (backend env (trace w) models) as [r|? exc];
      [|exact Hnext].
    cbn [not_ready] in Hfail. apply Z.eqb_neq in Hfail. rewrite Hfail.
    exact Hnext.
Qed.

Lemma ready_on_nth_attempt_witness :
  wait_loop booting 5 10 None (clock_read start)
  = Some (Return tt,
          {| monotonic_reads := 4; perf_counter_reads := 0;
             trace := [Request models; Sleep 1; Request models; Sleep 1;
                       Request models] |}).
Proof.
  apply (ready_on_nth_attempt booting 10 2 5 None (clock_read start) ready).
  - intros [|[|i]] Hi; [discriminate | exact I | lia].
  - reflexivity.
  - reflexivity.
  - intros [|[|[|i]]] Hi; [vm_compute; reflexivity .. | lia].
  - lia.
Defined.

(** The prober does not retry for ever: once the clock is at the deadline
    at the [k]-th reading from now, [k + 1] turns are enough for the loop
    to have returned or raised. *)
Lemma wait_loop_terminates env deadline : forall k fuel last_error w,
  (deadline <= monotonic env (monotonic_reads w + k))%Q ->
  (k < fuel)%nat ->
  exists r w',
    wait_loop env fuel deadline last_error w = Some (r, w')
    /\ (r = Return tt
        \/ exists last,
             r = Raise (EVLLMTimeoutError (startup_timeout last))).
Proof.
  induction k as [|k IH]; intros fuel last_error w Hk Hfuel;
    (destruct fuel as [|fuel]; [lia|]).
  - rewrite wait_loop_deadline; [eauto 6|].
    unfold now. now rewrite Nat.add_0_r in Hk.
  - destruct (Qlt_le_dec (now env w) deadline) as [Hlt|Hge].
    + rewrite (wait_loop_probe _ _ _ _ _ Hlt).
      assert (Hnext : forall last,
        exists r w',
          wait_loop env fuel deadline last
            (after_turn w [Request models; Sleep 1]) = Some (r, w')
          /\ (r = Return tt
              \/ exists last',
                   r = Raise (EVLLMTimeoutError (startup_timeout last')))).
      { intros last. apply IH; [|lia].
        cbn [after_turn monotonic_reads].
        replace (S (monotonic_reads w) + k)%nat
          with (monotonic_reads w + S k)%nat by lia.
        exact Hk. }
      destruct (backend env (trace w) models) as [r|? exc];
        [|apply Hnext].
      destruct (status_code r =? 200)%Z; [eauto 6 | apply Hnext].
    + rewrite wait_loop_deadline; [eauto 6 | exact Hge].
Qed.


Lemma wait_loop_terminates_witness :
  exists r w',
    wait_loop booting 5 3 None (clock_read start) = Some (r, w')
    /\ (r = Return tt
        \/ exists last,
             r = Raise (EVLLMTimeoutError (startup_timeout last))).
Proof.
  apply (wait_loop_terminates booting 3 2 5 None (clock_read start)).
  - vm_compute. discriminate.
  - lia.
Defined.

End ReadinessFacts.

(** ** MIME types *)

Module MimeFacts.
Import PyStr ImageProcessing Completion.

Lemma normalize_cases content_type :
  normalize_image_mime_type content_type
  = if decide (lower (strip content_type) = "image/jpg")
    then "image/jpeg"
    else lower (strip content_type).
Proof.
  unfold normalize_image_mime_type, _MIME_ALIASES. cbv zeta.
  rewrite lookup_singleton.
  destruct (decide ("image/jpg" = lower (strip content_type))) as [E|E];
    destruct (decide (lower (strip content_type) = "image/jpg"));
    try reflexivity; congruence.
Qed.

Lemma jpeg_allowed : "image/jpeg" ∈ ALLOWED_CONTENT_TYPES.
Proof. apply (bool_decide_unpack _). vm_compute. exact I. Qed.

Lemma jpg_allowed : "image/jpg" ∈ ALLOWED_CONTENT_TYPES.
Proof. apply (bool_decide_unpack _). vm_compute. exact I. Qed.

(** The alias does not change whether a type is on the allow-list. *)
Lemma normalize_allowed content_type :
  normalize_image_mime_type content_type ∈ ALLOWED_CONTENT_TYPES
  <-> lower (strip content_type) ∈ ALLOWED_CONTENT_TYPES.
Proof.
  rewrite normalize_cases.
  destruct (decide (lower (strip content_type) = "image/jpg")) as [->|];
    [|reflexivity].
  split; intros _; [apply jpg_allowed | apply jpeg_allowed].
Qed.

(** C9: normalization trims its input, lowercases it and maps
    ["image/jpg"] to ["image/jpeg"], so ["Image/JPG"] becomes
    ["image/jpeg"] and ["image/png"] stays; and an upload whose type,
    trimmed and lowercased, is not one of the six allowed types is
    rejected with nothing sent to the backend. *)
Theorem mime_normalized_and_checked :
  (forall content_type,
     normalize_image_mime_type content_type
     = if decide (lower (strip content_type) = "image/jpg")
       then "image/jpeg"
       else lower (strip content_type))
  /\ normalize_image_mime_type "Image/JPG" = "image/jpeg"
  /\ normalize_image_mime_type "image/png" = "image/png"
  /\ ALLOWED_CONTENT_TYPES
     = {[ "image/jpeg"; "image/jpg"; "image/png"; "image/webp";
          "image/bmp"; "image/tiff" ]}
  /\ (forall settings env image_bytes content_type w,
        lower (strip content_type) ∉ ALLOWED_CONTENT_TYPES ->
        handle_upload settings env image_bytes content_type w
        = (Rejected, w)).
Proof.
  split; [exact normalize_cases|].
  repeat split.
  intros settings env image_bytes content_type w Hout.
  unfold handle_upload. rewrite bool_decide_false; [reflexivity|].
  now rewrite normalize_allowed.
Qed.

Lemma mime_normalized_and_checked_witness :
  handle_upload settings0 (answers empty_content) [Byte.x89; Byte.x50]
    " image/GIF " start
  = (Rejected, start).
Proof.
  apply (proj2 (proj2 (proj2 (proj2 mime_normalized_and_checked)))).
  intros H. apply (bool_decide_pack _) in H. vm_compute in H. exact H.
Defined.


End MimeFacts.

(** ** One request for each call *)

Module CallFacts.
Import PyStr VLLMClientHelpers Extractor Completion PyStrFacts
  ExtractorFacts CompletionFacts Calls.


(** The world after a completion call made in [w]. *)
Lemma chat_completion_world env payload w :
  snd (_chat_completion env payload w)
  = {| monotonic_reads := monotonic_reads w;
       perf_counter_reads := S (S (perf_counter_reads w));
       trace := trace w ++ [Request (POST completions payload)] |}.
Proof.
  unfold _chat_completion, bind, perform, send, time_perf_counter, raise,
    ret.
  cbn [trace perf_counter_reads monotonic_reads fst snd].
  fold completions.
  destruct (backend env (trace w) (POST completions payload))
    as [response|[] exc]; try reflexivity.
  destruct (400 <=? status_code response)%Z; [reflexivity|].
  destruct (json response); reflexivity.
Qed.

(** Whatever the backend does (answer, error status, broken body,
    timeout, refused connection), [run_ocr] sends exactly one request, the
    POST of its payload, reads [time.perf_counter] twice, and neither
    sleeps nor reads the monotonic clock: a failed call is not retried. *)
Theorem run_ocr_sends_one_request
  (settings : Settings) (env : Env) (image_data_url : string) (w : World) :
  snd (run_ocr settings env image_data_url w)
  = {| monotonic_reads := monotonic_reads w;
       perf_counter_reads := S (S (perf_counter_reads w));
       trace := trace w ++ [Request (ocr_request settings image_data_url)] |}.
Proof.
  pose proof (chat_completion_world env
                (_build_payload settings (ocr_prompt settings)
                   image_data_url (max_tokens settings)) w) as Hw.
  unfold run_ocr, bind, lift, ocr_request.
  destruct (_chat_completion _ _ _) as [[data|x] w']; exact Hw.
Qed.

(** The vision check looks at the status and at whether the body is JSON,
    and at nothing in the body: it succeeds exactly when the backend
    answers its request with a status below 400 and a body that parses,
    whatever the completion says. *)
Theorem vision_check_ignores_the_completion
  (settings : Settings) (env : Env) (w : World) :
  fst (_verify_vision_path settings env w) = Return tt
  <-> exists response data,
        backend env (trace w) (vision_request settings) = Responded response
        /\ (status_code response < 400)%Z
        /\ json response = inr data.
Proof.
  unfold _verify_vision_path, bind, vision_request.
  destruct (_chat_completion env _ w) as [r w'] eqn:E.
  assert (Hr : fst (_chat_completion env
                      (_build_payload settings "Reply with exactly OK."
                         TWO_BY_TWO_TRANSPARENT_PNG 8) w) = r)
    by (now rewrite E).
  clear E. revert Hr.
  unfold _chat_completion, bind, perform, send, time_perf_counter, raise,
    ret.
  cbn [trace perf_counter_reads monotonic_reads fst snd].
  fold completions.
  destruct (backend env (trace w) _) as [response|[] exc].
  - destruct (400 <=? status_code response)%Z eqn:Es.
    + intros <-. split; [discriminate|].
      intros (r' & d & [= <-] & Hlt & _). apply Z.leb_le in Es. lia.
    + apply Z.leb_gt in Es.
      destruct (json response) as [exc|data] eqn:Ej; intros <-.
      * split; [discriminate|].
        intros (r' & d & [= <-] & _ & Hj). congruence.
      * split; [|reflexivity]. intros _. eauto.
  - intros <-. split; [discriminate|]. intros (? & ? & ? & _). discriminate.
  - intros <-. split; [discriminate|]. intros (? & ? & ? & _). discriminate.
Qed.

(** Only the first choice counts: two responses whose ["choices"] start
    with the same element give the same text or the same error, whatever
    their other choices and their other members are. *)
Theorem only_the_first_choice_counts
  (result1 result2 : gmap string jvalue) (head : jvalue)
  (rest1 rest2 : list jvalue) :
  result1 !! "choices" = Some (JList (head :: rest1)) ->
  result2 !! "choices" = Some (JList (head :: rest2)) ->
  _extract_message_content (JObject result1)
  = _extract_message_content (JObject result2).
Proof.
  intros H1 H2. rewrite !extract_object, H1, H2. reflexivity.
Qed.

Lemma only_the_first_choice_counts_witness :
  _extract_message_content (JObject two_choices)
  = _extract_message_content (JObject single_choice).
Proof.
  exact (only_the_first_choice_counts two_choices single_choice one_choice
           [JObject {[ "message" := JObject {[ "content" := JString "two" ]} ]}]
           [] eq_refl eq_refl).
Defined.


End CallFacts.

(** ** Latency and error detail *)

Module DetailFacts.
Import PyStr VLLMClientHelpers Completion ErrorDetail PyStrFacts.

Lemma py_int_floor (x : Q) :
  (0 <= x)%Q ->
  (0 <= py_int x)%Z
  /\ (inject_Z (py_int x) <= x)%Q
  /\ (x < inject_Z (py_int x + 1))%Q.
Proof.
  intros Hx.
  assert (Hnum : (0 <= Qnum x)%Z).
  { unfold Qle in Hx. cbn in Hx. lia. }
  assert (Hfloor : py_int x = Qfloor x).
  { unfold py_int. destruct x as [n d]. cbn [Qnum Qden Qfloor] in *.
    apply Z.quot_div_nonneg; lia. }
  rewrite Hfloor. split; [|split].
  - rewrite <- Hfloor. unfold py_int.
    apply Z.quot_pos; lia.
  - apply Qfloor_le.
  - apply Qlt_floor.
Qed.

(** The latency is computed in floats. Between the readings 0.0 and
    0.009 it is 9 ms, though the float 0.009 is below 9/1000 and its
    exact product with 1000 below 9. *)
Lemma latency_is_a_float_product :
  latency_since 0 (Float64.round (9 # 1000)) = 9%Z
  /\ (Float64.round (9 # 1000) * 1000 < 9)%Q.
Proof. split; vm_compute; reflexivity. Qed.

(** With a [perf_counter] whose second reading is not below the first,
    the latency an error carries is never negative; it is 0 when the two
    readings are the same. *)
Theorem latency_is_never_negative (started now : Q) :
  (started <= now)%Q ->
  (0 <= latency_since started now)%Z
  /\ latency_since started started = 0%Z.
Proof.
  intros H. unfold latency_since. split.
  - apply py_int_floor. apply Float64Facts.mul_nonneg; [|discriminate].
    apply Float64Facts.sub_nonneg, H.
  - unfold Float64.mul, Float64.sub.
    rewrite (Float64Facts.round_comp (started - started) 0) by ring.
    reflexivity.
Qed.

Lemma latency_is_never_negative_witness :
  (0 <= latency_since (Float64.round (1 # 10)) (Float64.round (109 # 1000)))%Z
  /\ latency_since (Float64.round (1 # 10)) (Float64.round (1 # 10)) = 0%Z.
Proof.
  apply (latency_is_never_negative (Float64.round (1 # 10))
           (Float64.round (109 # 1000))).
  vm_compute. discriminate.
Defined.

Lemma slice_to_length n s :
  String.length (slice_to n s) = Nat.min n (String.length s).
Proof.
  revert s. induction n as [|n IH]; intros [|c s]; cbn; try reflexivity.
  now rewrite IH.
Qed.

Lemma slice_to_prefix n s : exists rest, s = slice_to n s +:+ rest.
Proof.
  revert s. induction n as [|n IH]; intros s.
  - exists s. now destruct s.
  - destruct s as [|c s]; [now exists EmptyString|].
    destruct (IH s) as [rest Hrest]. exists rest.
    change (String c s = String c (slice_to n s +:+ rest)).
    f_equal. exact Hrest.
Qed.

Lemma slice_to_empty n s :
  slice_to (S n) s = EmptyString -> s = EmptyString.
Proof. destruct s; [reflexivity | discriminate]. Qed.

(** The detail of an HTTP error is a message of the parsed body, the
    ["message"] under ["error"] or the top-level one, trimmed, whole
    however long it is, and not empty; or it is the start of the raw
    text, of at most 500 characters. It is empty only when the raw text
    is. *)
Theorem error_detail_is_message_or_raw_start (response : Response) :
  ((exists body m,
      json response = inr body
      /\ m ∈ body_messages body
      /\ _extract_error_message response = strip m
      /\ strip m <> "")
   \/ (_extract_error_message response = slice_to 500 (text response)
       /\ String.length (_extract_error_message response) <= 500
       /\ exists rest,
            text response = _extract_error_message response +:+ rest))
  /\ (_extract_error_message response = "" -> text response = "").
Proof.
  set (P := fun r : string =>
    ((exists body m,
        json response = inr body /\ m ∈ body_messages body
        /\ r = strip m /\ strip m <> "")
     \/ (r = slice_to 500 (text response) /\ String.length r <= 500
         /\ exists rest, text response = r +:+ rest))
    /\ (r = "" -> text response = "")).
  change (P (_extract_error_message response)).
  assert (Hraw : P (slice_to 500 (text response))).
  { split.
    - right. split; [reflexivity|]. split.
      + rewrite slice_to_length. lia.
      + apply slice_to_prefix.
    - apply slice_to_empty. }
  assert (Hmsg : forall body m,
    json response = inr body -> m ∈ body_messages body ->
    truthy (strip m) = true -> P (strip m)).
  { intros body m Hj Hin Hm. apply truthy_true in Hm. split.
    - left. exists body, m. now repeat split.
    - intros E. contradiction. }
  unfold _extract_error_message.
  destruct (json response) as [exc|payload] eqn:Hj; [exact Hraw|].
  destruct payload as [| | | | | |p]; try exact Hraw.
  assert (Htop :
    P match default JNull (p !! "message") with
      | JString message0 =>
          if truthy (strip message0) then strip message0
          else slice_to 500 (text response)
      | _ => slice_to 500 (text response)
      end).
  { destruct (p !! "message") as [[| | | |m| |]|] eqn:Hm;
      cbn [from_option id]; try exact Hraw.
    destruct (truthy (strip m)) eqn:Em; [|exact Hraw].
    apply (Hmsg (JObject p) m eq_refl); [|exact Em].
    cbn [body_messages]. rewrite Hm. apply elem_of_app. right.
    apply list_elem_of_singleton. reflexivity. }
  cbv zeta.
  destruct (p !! "error") as [[| | | | | |e]|] eqn:He;
    cbn [from_option id]; try exact Htop.
  destruct (e !! "message") as [[| | | |m| |]|] eqn:Hm;
    cbn [from_option id]; try exact Htop.
  destruct (truthy (strip m)) eqn:Em; [|exact Htop].
  apply (Hmsg (JObject p) m eq_refl); [|exact Em].
  cbn [body_messages]. rewrite He, Hm. apply elem_of_app. left.
  apply list_elem_of_singleton. reflexivity.
Qed.

End DetailFacts.

(** ** Whole runs of the startup check *)

Module StartupFacts.
Import PyStr Completion Readiness CompletionFacts ReadinessFacts Calls
  CallFacts Startup.

Lemma reply_at_0 env w : reply_at env w 0 = backend env (trace w) models.
Proof. unfold reply_at. cbn [attempts]. now rewrite app_nil_r. Qed.

Lemma reply_at_after_turn env w i :
  reply_at env (after_turn w [Request models; Sleep 1]) i
  = reply_at env w (S i).
Proof. unfold reply_at. now rewrite after_turn_attempts. Qed.

Lemma kept_error_after_turn env last_error w n :
  kept_error env (Some (error_of (backend env (trace w) models)))
    (after_turn w [Request models; Sleep 1]) n
  = kept_error env last_error w (S n).
Proof.
  destruct n as [|n]; cbn [kept_error].
  - now rewrite reply_at_0.
  - now rewrite reply_at_after_turn.
Qed.

Lemma wait_loop_runs (env : Env) (deadline : Q) :
  forall fuel last_error w r w',
    wait_loop env fuel deadline last_error w = Some (r, w') ->
    exists n,
      monotonic_reads w' = (monotonic_reads w + S n)%nat
      /\ perf_counter_reads w' = perf_counter_reads w
      /\ ended env deadline last_error w n r w'.
Proof.
  induction fuel as [|fuel IH]; intros last_error w r w' Hrun;
    [discriminate|].
  destruct (Qlt_le_dec (now env w) deadline) as [Hlt|Hge].
  - rewrite (wait_loop_probe _ _ _ _ _ Hlt) in Hrun.
    assert (Hnext :
      not_ready (backend env (trace w) models) ->
      wait_loop env fuel deadline
        (Some (error_of (backend env (trace w) models)))
        (after_turn w [Request models; Sleep 1]) = Some (r, w') ->
      exists n,
        monotonic_reads w' = (monotonic_reads w + S n)%nat
        /\ perf_counter_reads w' = perf_counter_reads w
        /\ ended env deadline last_error w n r w').
    { intros Hnot Hrec.
      destruct (IH _ _ _ _ Hrec) as (n & Hm & Hp & Hbefore & Hend).
      exists (S n). cbn [after_turn monotonic_reads perf_counter_reads] in *.
      split; [lia|]. split; [exact Hp|]. split.
      - intros [|i] Hi.
        + rewrite reply_at_0, Nat.add_0_r. split; [exact Hnot | exact Hlt].
        + destruct (Hbefore i ltac:(lia)) as [Hr Hc].
          rewrite reply_at_after_turn in Hr.
          replace (monotonic_reads w + S i)%nat
            with (S (monotonic_reads w) + i)%nat by lia.
          split; assumption.
      - replace (monotonic_reads w + S n)%nat
          with (S (monotonic_reads w) + n)%nat by lia.
        destruct Hend as [(-> & Hc & Hok & Ht) | (-> & Hc & Ht)].
        + left. split; [reflexivity|]. split; [exact Hc|].
          rewrite reply_at_after_turn in Hok. split; [exact Hok|].
          rewrite Ht. cbn [after_turn trace attempts].
          now rewrite <- !app_assoc.
        + right. rewrite (kept_error_after_turn env last_error w n).
          split; [reflexivity|]. split; [exact Hc|].
          now rewrite Ht, after_turn_attempts. }
    destruct (backend env (trace w) models) as [response|? exc] eqn:Hb;
      [|exact (Hnext I Hrun)].
    destruct (status_code response =? 200)%Z eqn:Hs;
      [|apply Z.eqb_neq in Hs; exact (Hnext Hs Hrun)].
    apply Z.eqb_eq in Hs.
    injection Hrun as <- <-. exists O.
    cbn [after_turn monotonic_reads perf_counter_reads trace attempts].
    split; [lia|]. split; [reflexivity|]. split; [intros i Hi; lia|].
    left. split; [reflexivity|]. rewrite Nat.add_0_r. split; [exact Hlt|].
    split; [|reflexivity].
    exists response. rewrite reply_at_0. now split.
  - rewrite (wait_loop_deadline _ _ _ _ _ Hge) in Hrun.
    injection Hrun as <- <-. exists O.
    cbn [clock_read monotonic_reads perf_counter_reads trace].
    split; [lia|]. split; [reflexivity|]. split; [intros i Hi; lia|].
    right. split; [reflexivity|]. rewrite Nat.add_0_r. split; [exact Hge|].
    cbn [attempts]. now rewrite app_nil_r.
Qed.

(** Every run of the readiness loop that ends has made some number [n] of
    failed attempts, each before the deadline, answered with an exception
    or a status other than 200, and followed by one second of sleep. Then
    either one more GET was sent before the deadline and answered 200,
    and the loop returned; or the clock was at the deadline, and the loop
    raised the startup timeout, whose detail is the error of the last
    attempt, and what the loop started with when there was none. The
    loop reads the monotonic clock once a turn and sends nothing else. *)
Theorem finished_runs_of_the_prober (env : Env) (deadline : Q) :
  forall fuel last_error w r w',
    wait_loop env fuel deadline last_error w = Some (r, w') ->
    exists n,
      monotonic_reads w' = (monotonic_reads w + S n)%nat
      /\ perf_counter_reads w' = perf_counter_reads w
      /\ ended env deadline last_error w n r w'.
Proof. exact (wait_loop_runs env deadline). Qed.

Lemma finished_runs_of_the_prober_witness :
  exists n,
    monotonic_reads
      {| monotonic_reads := 4; perf_counter_reads := 0;
         trace := [Request models; Sleep 1; Request models; Sleep 1;
                   Request models] |}
    = (monotonic_reads (clock_read start) + S n)%nat
    /\ perf_counter_reads
         {| monotonic_reads := 4; perf_counter_reads := 0;
            trace := [Request models; Sleep 1; Request models; Sleep 1;
                      Request models] |}
       = perf_counter_reads (clock_read start)
    /\ ended booting 10 None (clock_read start) n (Return tt)
         {| monotonic_reads := 4; perf_counter_reads := 0;
            trace := [Request models; Sleep 1; Request models; Sleep 1;
                      Request models] |}.
Proof.
  refine (finished_runs_of_the_prober booting 10 5 None (clock_read start)
            _ _ _).
  vm_compute. reflexivity.
Defined.

Lemma vision_check_world settings env w :
  snd (_verify_vision_path settings env w)
  = {| monotonic_reads := monotonic_reads w;
       perf_counter_reads := S (S (perf_counter_reads w));
       trace := trace w ++ [Request (vision_request settings)] |}.
Proof.
  pose proof (chat_completion_world env
                (_build_payload settings "Reply with exactly OK."
                   TWO_BY_TWO_TRANSPARENT_PNG 8) w) as Hw.
  unfold _verify_vision_path, bind, ret, vision_request.
  destruct (_chat_completion _ _ w) as [[data|x] w2]; exact Hw.
Qed.

(** The startup check sends the vision request only after a readiness
    probe was answered 200, only when [check_vision] is set, and then
    exactly once; the outcome of the vision check is then the outcome of
    the startup check. When readiness times out, the timeout is what the
    check raises, and no completion request is sent at all; without
    [check_vision] a backend that answered 200 is all it takes. Every
    probe before the last was answered with something else than a 200. *)
Theorem startup_check_order
  (settings : Settings) (env : Env) (fuel : nat) (check_vision : bool)
  (w : World) (r : outcome unit) (w' : World) :
  startup_check settings env fuel check_vision w = Some (r, w') ->
  exists n, startup_ended settings env check_vision w n r w'.
Proof.
  unfold startup_check, _wait_until_ready. cbn [time_monotonic].
  fold (clock_read w).
  destruct (wait_loop env fuel _ None (clock_read w)) as [[r1 w1]|] eqn:Hrun;
    [|discriminate].
  intros Hsc.
  destruct (wait_loop_runs env _ _ _ _ _ _ Hrun)
    as (n & Hm & Hp & Hbefore & Hend).
  exists n. split; [intros i Hi; exact (proj1 (Hbefore i Hi))|].
  cbn [clock_read monotonic_reads perf_counter_reads trace] in Hm, Hp, Hend.
  destruct Hend as [(-> & _ & Hok & Ht) | (-> & _ & Ht)].
  - right. split; [exact Hok|].
    assert (Hw1 : w1 = ready_world w n).
    { destruct w1 as [m1 p1 t1]. unfold ready_world.
      cbn [monotonic_reads perf_counter_reads trace] in *.
      subst p1 t1. f_equal. lia. }
    destruct check_vision.
    + injection Hsc as Hv. rewrite <- Hw1. split; [now rewrite Hv|].
      replace w' with (snd (_verify_vision_path settings env w1))
        by now rewrite Hv.
      rewrite vision_check_world. cbn [trace]. rewrite Ht.
      now rewrite <- !app_assoc.
    + injection Hsc as <- <-. now split.
  - injection Hsc as <- <-. left. split; [reflexivity | exact Ht].
Qed.

Lemma startup_check_order_witness :
  exists n,
    startup_ended patient booting true start n (Return tt)
      {| monotonic_reads := 4; perf_counter_reads := 2;
         trace := [Request models; Sleep 1; Request models; Sleep 1;
                   Request models; Request (vision_request patient)] |}.
Proof.
  refine (startup_check_order patient booting 5 true start _ _ _).
  vm_compute. reflexivity.
Defined.


End StartupFacts.

(** ** The import guard of the entry point *)

Module EntrypointFacts.
Import NoFlashEntrypoint Imports.


Lemma startswith_iff prefix : forall s,
  startswith prefix s = true <-> exists rest, s = prefix +:+ rest.
Proof.
  induction prefix as [|a prefix IH]; intros s.
  - split; [exists s; reflexivity | reflexivity].
  - destruct s as [|b s]; cbn [startswith].
    + split; [discriminate | intros [rest H]; discriminate H].
    + rewrite andb_true_iff, Ascii.eqb_eq, IH. split.
      * intros [-> [rest ->]]. exists rest. reflexivity.
      * intros [rest H]. injection H as -> ->. eauto.
Qed.

(** The guard blocks [flash_attn] and every module below it, and nothing
    else: a blocked name stays blocked with a submodule appended, and a
    name that merely starts with the same letters, such as
    [flash_attn_interface], is not blocked. *)
Theorem blocked_modules_are_flash_attn_and_below :
  (forall module_name,
     _is_blocked_module module_name = true
     <-> module_name = "flash_attn"
         \/ exists rest, module_name = "flash_attn." +:+ rest)
  /\ (forall module_name sub,
        _is_blocked_module module_name = true ->
        _is_blocked_module (module_name +:+ "." +:+ sub) = true)
  /\ (forall c rest,
        c <> "."%char ->
        _is_blocked_module ("flash_attn" +:+ String c rest) = false).
Proof.
  assert (Hiff : forall module_name,
     _is_blocked_module module_name = true
     <-> module_name = "flash_attn"
         \/ exists rest, module_name = "flash_attn." +:+ rest).
  { intros module_name. unfold _is_blocked_module.
    now rewrite orb_true_iff, String.eqb_eq, startswith_iff. }
  split; [exact Hiff|]. split.
  - intros module_name sub Hb. apply Hiff in Hb. apply Hiff. right.
    destruct Hb as [-> | [rest ->]].
    + exists sub. reflexivity.
    + exists (rest +:+ "." +:+ sub). reflexivity.
  - intros c rest Hc. unfold _is_blocked_module.
    apply orb_false_iff. split.
    + reflexivity.
    + destruct (startswith "flash_attn." ("flash_attn" +:+ String c rest))
        eqn:E; [|reflexivity].
      apply startswith_iff in E. destruct E as [rest' E].
      injection E as E _. contradiction.
Qed.

Lemma blocked_modules_are_flash_attn_and_below_witness :
  _is_blocked_module "flash_attn.flash_attn_interface" = true
  /\ _is_blocked_module ("flash_attn.layers" +:+ "." +:+ "rotary") = true
  /\ _is_blocked_module ("flash_attn" +:+ "_interface") = false.
Proof.
  destruct blocked_modules_are_flash_attn_and_below as (Hiff & Hsub & Hother).
  split; [|split].
  - apply Hiff. right. exists "flash_attn_interface". reflexivity.
  - apply Hsub, Hiff. right. exists "layers". reflexivity.
  - apply Hother. discriminate.
Defined.

(** An import under the guard: a blocked name raises
    [ModuleNotFoundError] whatever import function is in place, so that
    one is not consulted; every other call gets what the import function
    in place gives, with the arguments unchanged; and installing the
    guard a second time changes nothing. *)
Theorem guard_blocks_and_hands_through
  (namespace module : Type)
  (original_import other_import
     : import_call namespace -> import_result module)
  (call : import_call namespace) :
  (_is_blocked_module (name call) = true ->
   guarded_import original_import call
   = ImportRaised
       (PyExc "ModuleNotFoundError"
          ("Blocked optional dependency: " +:+ name call))
   /\ guarded_import original_import call
      = guarded_import other_import call)
  /\ (_is_blocked_module (name call) = false ->
      guarded_import original_import call = original_import call)
  /\ _install_flash_attn_block (_install_flash_attn_block original_import)
       call
     = _install_flash_attn_block original_import call.
Proof.
  unfold _install_flash_attn_block, guarded_import.
  destruct (_is_blocked_module (name call)); repeat split; discriminate.
Qed.

Lemma guard_blocks_and_hands_through_witness :
  guarded_import finds_all (importing "flash_attn.ops")
  = ImportRaised
      (PyExc "ModuleNotFoundError"
         "Blocked optional dependency: flash_attn.ops")
  /\ guarded_import finds_all (importing "torch") = Imported "torch".
Proof.
  split.
  - exact (proj1 (proj1 (guard_blocks_and_hands_through unit string
                           finds_all finds_all (importing "flash_attn.ops"))
                    eq_refl)).
  - exact (proj1 (proj2 (guard_blocks_and_hands_through unit string
                           finds_all finds_all (importing "torch")))
             eq_refl).
Defined.


End EntrypointFacts.

(** ** The JSON log formatter *)

Module LoggingFacts.
Import LoggingUtils LogLine.

Local Open Scope list_scope.

Lemma setitem_fresh (d : odict) key value :
  key ∉ d.*1 -> setitem d key value = d ++ [(key, value)].
Proof.
  induction d as [|[k v] d IH]; intros Hfresh; cbn [setitem app];
    [reflexivity|].
  cbn [fmap list_fmap fst] in Hfresh. apply not_elem_of_cons in Hfresh.
  destruct Hfresh as [Hne Hfresh].
  destruct (String.eqb k key) eqn:E.
  - apply String.eqb_eq in E. congruence.
  - now rewrite IH.
Qed.

Lemma extra_entries_keys record keys key :
  key ∈ (omap (extra_entry record) keys).*1 -> key ∈ keys.
Proof.
  induction keys as [|k keys IH]; cbn [omap list_omap]; [easy|].
  unfold extra_entry at 1.
  destruct (attributes record !! k) as [v|];
    [destruct (is_not_None v)|];
    cbn [fmap list_fmap fst]; rewrite ?elem_of_cons; intuition.
Qed.

Lemma copy_keys record : forall keys payload,
  NoDup keys ->
  (forall key, key ∈ keys -> key ∉ payload.*1) ->
  fold_left (copy_key record) keys payload
  = payload ++ omap (extra_entry record) keys.
Proof.
  induction keys as [|k keys IH]; intros payload Hnd Hfresh;
    cbn [fold_left omap list_omap]; [now rewrite app_nil_r|].
  apply NoDup_cons in Hnd. destruct Hnd as [Hk Hnd].
  assert (Hstep : copy_key record payload k
                  = payload ++ match extra_entry record k with
                               | Some e => [e]
                               | None => []
                               end).
  { unfold copy_key, extra_entry.
    destruct (attributes record !! k) as [v|]; cbn [default from_option id];
      [|now rewrite app_nil_r].
    destruct (is_not_None v); [|now rewrite app_nil_r].
    apply setitem_fresh, Hfresh. left. }
  rewrite Hstep, IH; [| exact Hnd |].
  - destruct (extra_entry record k); now rewrite <- app_assoc.
  - intros key Hin. rewrite fmap_app, elem_of_app. intros [Hp|He].
    + apply (Hfresh key); [now right | exact Hp].
    + unfold extra_entry in He.
      destruct (attributes record !! k) as [v|];
        [destruct (is_not_None v)|]; cbn in He;
        try (apply elem_of_nil in He; contradiction).
      apply list_elem_of_singleton in He. congruence.
Qed.

Lemma keys_distinct : NoDup (BASE_KEYS ++ EXTRA_KEYS ++ ["exception"]).
Proof. apply (bool_decide_unpack _). vm_compute. exact I. Qed.

Lemma log_payload_layout_eq (ts : string) (record : LogRecord) :
  format_payload ts record
  = [ ("ts", JString ts);
      ("level", JString (levelname record));
      ("logger", JString (name record));
      ("message", JString (getMessage record)) ]
    ++ omap (extra_entry record) EXTRA_KEYS
    ++ match exc_info record with
       | Some text => [("exception", JString text)]
       | None => []
       end.
Proof.
  pose proof keys_distinct as Hnd.
  apply NoDup_app in Hnd. destruct Hnd as (_ & Hbase & Hnd).
  apply NoDup_app in Hnd. destruct Hnd as (Hextra & Hexc & _).
  unfold format_payload. cbv zeta.
  rewrite copy_keys; [| exact Hextra |].
  - destruct (exc_info record) as [text|]; [|now rewrite app_nil_r].
    rewrite setitem_fresh; [now rewrite <- app_assoc|].
    rewrite fmap_app, elem_of_app. intros [Hb|He].
    + apply (Hbase "exception"); [exact Hb|].
      apply elem_of_app. right. left.
    + apply extra_entries_keys in He. apply (Hexc _ He). left.
  - intros key Hin Hb. apply (Hbase key); [exact Hb|].
    apply elem_of_app. now left.
Qed.

(** A log line holds, in this order: the time, the level, the logger and
    the message; then, in the order of the formatter's key list, each
    listed attribute of the record that is set and not [None]; then the
    exception text when the record has one. No assignment overwrites an
    earlier one. *)
Theorem log_payload_layout (ts : string) (record : LogRecord) :
  format_payload ts record
  = [ ("ts", JString ts);
      ("level", JString (levelname record));
      ("logger", JString (name record));
      ("message", JString (getMessage record)) ]
    ++ omap (extra_entry record) EXTRA_KEYS
    ++ match exc_info record with
       | Some text => [("exception", JString text)]
       | None => []
       end.
Proof. exact (log_payload_layout_eq ts record). Qed.

(** What a log line never holds: a key twice, a [None] among the copied
    attributes, or an attribute of the record that is not on the
    formatter's list, whatever was set on the record. *)
Theorem log_payload_keys (ts : string) (record : LogRecord) :
  NoDup (format_payload ts record).*1
  /\ (forall key value,
        (key, value) ∈ format_payload ts record ->
        key ∈ EXTRA_KEYS ->
        attributes record !! key = Some value /\ value <> JNull)
  /\ (forall key,
        key ∈ (format_payload ts record).*1 ->
        key ∈ BASE_KEYS ++ EXTRA_KEYS ++ ["exception"]).
Proof.
  assert (Hsub : forall key,
            key ∈ (format_payload ts record).*1 ->
            key ∈ BASE_KEYS ++ EXTRA_KEYS ++ ["exception"]).
  { intros key. rewrite log_payload_layout_eq, !fmap_app, !elem_of_app.
    intros [Hb | [He | Hx]].
    - left. exact Hb.
    - right. left. eapply extra_entries_keys, He.
    - right. right. destruct (exc_info record); [exact Hx|].
      apply elem_of_nil in Hx. contradiction. }
  split; [|split; [|exact Hsub]].
  - pose proof keys_distinct as Hnd.
    rewrite log_payload_layout_eq, !fmap_app.
    apply NoDup_app in Hnd. destruct Hnd as (Hb & Hbase & Hnd).
    apply NoDup_app in Hnd. destruct Hnd as (Hextra & Hexc & Hx).
    assert (Hsubl : NoDup (omap (extra_entry record) EXTRA_KEYS).*1).
    { clear -Hextra. induction EXTRA_KEYS as [|k keys IH];
        cbn [omap list_omap]; [constructor|].
      apply NoDup_cons in Hextra. destruct Hextra as [Hk Hextra].
      unfold extra_entry at 1.
      destruct (attributes record !! k) as [v|];
        [destruct (is_not_None v)|]; try now apply IH.
      cbn [fmap list_fmap fst]. apply NoDup_cons. split; [|now apply IH].
      intros Hin. apply Hk. eapply extra_entries_keys, Hin. }
    apply NoDup_app. split; [exact Hb|]. split.
    + intros key Hk. rewrite elem_of_app. intros [He|Hex].
      * apply (Hbase key Hk). apply elem_of_app. left.
        eapply extra_entries_keys, He.
      * apply (Hbase key Hk). apply elem_of_app. right.
        destruct (exc_info record); [exact Hex|].
        apply elem_of_nil in Hex. contradiction.
    + apply NoDup_app. split; [exact Hsubl|]. split.
      * intros key He Hex. apply (Hexc key).
        -- eapply extra_entries_keys, He.
        -- destruct (exc_info record); [exact Hex|].
           apply elem_of_nil in Hex. contradiction.
      * destruct (exc_info record); [exact Hx | constructor].
  - intros key value. rewrite log_payload_layout_eq, !elem_of_app.
    pose proof keys_distinct as Hnd.
    apply NoDup_app in Hnd. destruct Hnd as (_ & Hbase & Hnd).
    apply NoDup_app in Hnd. destruct Hnd as (_ & Hexc & _).
    intros [Hb | [He | Hx]] Hkey.
    + exfalso. apply (Hbase key).
      * apply (list_elem_of_fmap_2 fst) in Hb. exact Hb.
      * apply elem_of_app. now left.
    + clear -He. induction EXTRA_KEYS as [|k keys IH];
        cbn [omap list_omap] in He; [apply elem_of_nil in He; contradiction|].
      unfold extra_entry at 1 in He.
      destruct (attributes record !! k) as [v|] eqn:Ek;
        [destruct (is_not_None v) eqn:Ev|]; try now apply IH.
      apply elem_of_cons in He. destruct He as [[= -> ->] | He];
        [|now apply IH].
      split; [exact Ek|]. intros ->. discriminate.
    + exfalso. destruct (exc_info record);
        [|apply elem_of_nil in Hx; contradiction].
      apply list_elem_of_singleton in Hx. injection Hx as -> _.
      apply (Hexc "exception" Hkey). left.
Qed.

Lemma log_payload_keys_witness :
  attributes request_record !! "request_id" = Some (JString "r1")
  /\ JString "r1" <> JNull.
Proof.
  apply (proj1 (proj2 (log_payload_keys "2026-01-01T00:00:00+00:00"
                         request_record)) "request_id" (JString "r1")).
  - vm_compute. do 4 right. left.
  - left.
Defined.


End LoggingFacts.

(** ** Normal forms of MIME types, and data URLs *)

Module DataUrlFacts.
Import PyStr ImageProcessing PyStrFacts MimeFacts.

Lemma lower_char_isspace c : isspace (lower_char c) = isspace c.
Proof. destruct c as [[] [] [] [] [] [] [] []]; reflexivity. Qed.

Lemma lower_char_idem c : lower_char (lower_char c) = lower_char c.
Proof. destruct c as [[] [] [] [] [] [] [] []]; reflexivity. Qed.

Lemma lower_idem s : lower (lower s) = lower s.
Proof.
  induction s as [|c s IH]; cbn [lower]; [reflexivity|].
  now rewrite lower_char_idem, IH.
Qed.

Lemma lstrip_lower s : lstrip (lower s) = lower (lstrip s).
Proof.
  induction s as [|c s IH]; cbn [lower lstrip]; [reflexivity|].
  rewrite lower_char_isspace. now destruct (isspace c).
Qed.

Lemma rstrip_lower s : rstrip (lower s) = lower (rstrip s).
Proof.
  induction s as [|c s IH]; cbn [lower rstrip]; [reflexivity|].
  rewrite IH, lower_char_isspace.
  destruct (rstrip s); cbn [lower]; [now destruct (isspace c) | reflexivity].
Qed.

Lemma strip_lower s : strip (lower s) = lower (strip s).
Proof. unfold strip. now rewrite lstrip_lower, rstrip_lower. Qed.

(** A normalized MIME type is a normal form: normalizing it again changes
    nothing, it has no surrounding whitespace and no capital letter, and
    it is never the alias ["image/jpg"]. *)
Theorem normalized_mime_is_a_normal_form (content_type : string) :
  normalize_image_mime_type (normalize_image_mime_type content_type)
  = normalize_image_mime_type content_type
  /\ strip (normalize_image_mime_type content_type)
     = normalize_image_mime_type content_type
  /\ lower (normalize_image_mime_type content_type)
     = normalize_image_mime_type content_type
  /\ normalize_image_mime_type content_type <> "image/jpg".
Proof.
  rewrite !normalize_cases.
  destruct (decide (lower (strip content_type) = "image/jpg")) as [E|E].
  - repeat split; discriminate.
  - assert (Hs : strip (lower (strip content_type))
                 = lower (strip content_type))
      by now rewrite strip_lower, strip_idem.
    rewrite Hs, lower_idem.
    destruct (decide (lower (strip content_type) = "image/jpg"));
      [contradiction|].
    repeat split; assumption.
Qed.

End DataUrlFacts.

(** ** The base64 payload of a data URL *)

Module Base64Facts.
Import PyStr ImageProcessing Base64.

Ltac dlia := zify; Z.to_euclidean_division_equations; lia.

Lemma list_ind3 {A} (P : list A -> Prop) :
  P [] -> (forall a, P [a]) -> (forall a b, P [a; b]) ->
  (forall a b c rest, P rest -> P (a :: b :: c :: rest)) ->
  forall l, P l.
Proof.
  intros H0 H1 H2 H3.
  assert (H : forall l, P l /\ (forall a, P (a :: l))
                        /\ (forall a b, P (a :: b :: l))).
  { induction l as [|x l (IH0 & IH1 & IH2)]; [now auto|].
    split; [exact (IH1 x)|]. split; [exact (fun a => IH2 a x)|].
    intros a b. now apply H3. }
  intros l. apply H.
Qed.

Lemma digit_value k :
  (k < 64)%N ->
  b64_value (b64_digit k) = k /\ Ascii.eqb (b64_digit k) "="%char = false.
Proof.
  intros Hk.
  assert (Hall :
    forallb (fun i => (b64_value (b64_digit (N.of_nat i)) =? N.of_nat i)%N
                      && negb (Ascii.eqb (b64_digit (N.of_nat i)) "="%char))
      (seq 0 64) = true) by (vm_compute; reflexivity).
  rewrite forallb_forall in Hall.
  specialize (Hall (N.to_nat k)).
  rewrite N2Nat.id in Hall.
  destruct (andb_prop _ _ (Hall ltac:(apply in_seq; lia))) as [Hv He].
  split; [now apply N.eqb_eq | now apply negb_true_iff].
Qed.

Lemma byte_of_to_N a : byte_of (Byte.to_N a) = a.
Proof. unfold byte_of. now rewrite Byte.of_to_N. Qed.

Lemma to_N_lt a : (Byte.to_N a < 256)%N.
Proof. pose proof (Byte.to_N_bounded a). lia. Qed.

Lemma b64decode_b64encode : forall bs, b64decode (b64encode bs) = bs.
Proof.
  apply list_ind3.
  - reflexivity.
  - intros a. pose proof (to_N_lt a) as Ha.
    cbn [b64encode]. cbv zeta.
    destruct (digit_value (Byte.to_N a / 4)) as [V1 _]; [dlia|].
    destruct (digit_value (Byte.to_N a mod 4 * 16)) as [V2 _]; [dlia|].
    cbn [b64decode]. change (Ascii.eqb "=" "=") with true. cbv iota.
    rewrite V1, V2.
    replace (Byte.to_N a / 4 * 4 + Byte.to_N a mod 4 * 16 / 16)%N
      with (Byte.to_N a) by dlia.
    now rewrite byte_of_to_N.
  - intros a b. pose proof (to_N_lt a) as Ha. pose proof (to_N_lt b) as Hb.
    cbn [b64encode]. cbv zeta.
    set (n := (Byte.to_N a * 256 + Byte.to_N b)%N).
    assert (Hn : (n < 65536)%N) by (subst n; lia).
    destruct (digit_value (n / 1024)) as [V1 _]; [dlia|].
    destruct (digit_value (n / 16 mod 64)) as [V2 _]; [dlia|].
    destruct (digit_value (n mod 16 * 4)) as [V3 E3]; [dlia|].
    cbn [b64decode]. rewrite E3.
    change (Ascii.eqb "=" "=") with true. cbv iota zeta.
    rewrite V1, V2, V3.
    replace (n / 1024 * 1024 + n / 16 mod 64 * 16 + n mod 16 * 4 / 4)%N
      with n by dlia.
    replace (n / 256)%N with (Byte.to_N a) by (subst n; dlia).
    replace (n mod 256)%N with (Byte.to_N b) by (subst n; dlia).
    now rewrite !byte_of_to_N.
  - intros a b c rest IH.
    pose proof (to_N_lt a) as Ha. pose proof (to_N_lt b) as Hb.
    pose proof (to_N_lt c) as Hc.
    cbn [b64encode]. cbv zeta.
    set (n := (Byte.to_N a * 65536 + Byte.to_N b * 256 + Byte.to_N c)%N).
    assert (Hn : (n < 16777216)%N) by (subst n; lia).
    destruct (digit_value (n / 262144)) as [V1 _]; [dlia|].
    destruct (digit_value (n / 4096 mod 64)) as [V2 _]; [dlia|].
    destruct (digit_value (n / 64 mod 64)) as [V3 E3]; [dlia|].
    destruct (digit_value (n mod 64)) as [V4 E4]; [dlia|].
    cbn [b64decode]. rewrite E3, E4. cbv iota zeta.
    rewrite V1, V2, V3, V4, IH.
    replace (n / 262144 * 262144 + n / 4096 mod 64 * 4096
             + n / 64 mod 64 * 64 + n mod 64)%N with n by dlia.
    replace (n / 65536)%N with (Byte.to_N a) by (subst n; dlia).
    replace (n / 256 mod 256)%N with (Byte.to_N b) by (subst n; dlia).
    replace (n mod 256)%N with (Byte.to_N c) by (subst n; dlia).
    now rewrite !byte_of_to_N.
Qed.

Lemma get_index_of s : forall i c,
  String.get i s = Some c -> (index_of c s < N.of_nat (String.length s))%N.
Proof.
  induction s as [|d s IH]; intros i c H; [destruct i; discriminate|].
  cbn [index_of String.length]. destruct (Ascii.eqb c d) eqn:E; [lia|].
  destruct i as [|i]; cbn [String.get] in H.
  - injection H as ->. rewrite Ascii.eqb_refl in E. discriminate.
  - specialize (IH i c H). lia.
Qed.

Lemma digit_is_b64_char n : is_b64_char (b64_digit n) = true.
Proof.
  unfold is_b64_char, b64_digit.
  destruct (String.get (N.to_nat n) b64_alphabet) as [c|] eqn:E;
    cbn [default from_option id]; [|reflexivity].
  apply get_index_of in E. change (String.length b64_alphabet) with 64%nat in E.
  apply orb_true_iff. left. apply negb_true_iff, N.eqb_neq. lia.
Qed.

Lemma append_cancel p : forall a b, p +:+ a = p +:+ b -> a = b.
Proof.
  induction p as [|c p IH]; intros a b H; [exact H|].
  injection H as H. now apply IH.
Qed.

(** A data URL is ["data:"], the normalized MIME type, [";base64,"] and
    the payload; the payload has four characters for every three bytes
    of the image, the last group filled up, and holds nothing but base64
    digits and [=]. *)
Theorem data_url_layout (image_bytes : list Byte.byte) (mime_type : string) :
  to_data_url image_bytes mime_type
  = "data:" +:+ normalize_image_mime_type mime_type +:+ ";base64,"
    +:+ b64encode image_bytes
  /\ String.length (b64encode image_bytes)
     = (4 * ((length image_bytes + 2) / 3))%nat
  /\ all_chars is_b64_char (b64encode image_bytes) = true.
Proof.
  split; [reflexivity|]. split.
  - induction image_bytes as [| a | a b | a b c rest IH] using list_ind3;
      try reflexivity.
    cbn [b64encode]. cbv zeta. cbn [String.length length]. rewrite IH.
    replace (S (S (S (length rest))) + 2)%nat
      with (length rest + 2 + 1 * 3)%nat by lia.
    rewrite Nat.div_add by lia. lia.
  - induction image_bytes as [| a | a b | a b c rest IH] using list_ind3;
      cbn [b64encode]; cbv zeta; cbn [all_chars];
      rewrite ?digit_is_b64_char, ?IH; reflexivity.
Qed.

(** Two images with the same MIME type get the same data URL only when
    they are the same bytes: the payload can be read back. *)
Theorem data_url_keeps_the_image
  (image1 image2 : list Byte.byte) (mime_type : string) :
  to_data_url image1 mime_type = to_data_url image2 mime_type ->
  image1 = image2.
Proof.
  unfold to_data_url. cbv zeta. intros H.
  do 3 apply append_cancel in H.
  rewrite <- (b64decode_b64encode image1), <- (b64decode_b64encode image2).
  now rewrite H.
Qed.

Lemma data_url_keeps_the_image_witness :
  [Byte.x89; Byte.x50; Byte.x4e; Byte.x47]
  = [Byte.x89; Byte.x50; Byte.x4e; Byte.x47].
Proof.
  exact (data_url_keeps_the_image
           [Byte.x89; Byte.x50; Byte.x4e; Byte.x47]
           [Byte.x89; Byte.x50; Byte.x4e; Byte.x47] " Image/PNG" eq_refl).
Defined.


End Base64Facts.

(** ** The request body *)

Module PayloadFacts.
Import Payload.

Lemma payload_reads settings prompt image_data_url max_tokens :
  prompt_of (_build_payload settings prompt image_data_url max_tokens)
  = Some (JString prompt)
  /\ image_url_of (_build_payload settings prompt image_data_url max_tokens)
     = Some (JString image_data_url)
  /\ member_of "max_tokens"
       (_build_payload settings prompt image_data_url max_tokens)
     = Some (JInt max_tokens).
Proof. repeat split. Qed.

(** A request body has the six keys of a chat completion and no other;
    its one message is the user's, made of the prompt followed by the
    image, whose data URL is in it as it was given; and the body
    determines the prompt, the image and the token budget: two calls
    send the same body only with the same three. *)
Theorem request_body_carries_its_inputs
  (settings : Settings) (prompt image_data_url : string) (max_tokens : Z) :
  keys_of (_build_payload settings prompt image_data_url max_tokens)
  = {[ "model"; "messages"; "temperature"; "top_p"; "max_tokens"; "top_k" ]}
  /\ member_of "messages"
       (_build_payload settings prompt image_data_url max_tokens)
     = Some (JList [
         JObject {[
           "role" := JString "user";
           "content" := JList [
             JObject {[ "type" := JString "text";
                        "text" := JString prompt ]};
             JObject {[ "type" := JString "image_url";
                        "image_url" :=
                          JObject {[ "url" := JString image_data_url ]} ]}
           ] ]} ])
  /\ image_url_of (_build_payload settings prompt image_data_url max_tokens)
     = Some (JString image_data_url)
  /\ (forall prompt' image_data_url' max_tokens',
        _build_payload settings prompt image_data_url max_tokens
        = _build_payload settings prompt' image_data_url' max_tokens' ->
        prompt = prompt' /\ image_data_url = image_data_url'
        /\ max_tokens = max_tokens').
Proof.
  split; [|split; [reflexivity|split; [reflexivity|]]].
  - cbn [keys_of _build_payload]. apply leibniz_equiv.
    rewrite !dom_insert, dom_singleton. set_solver.
  - intros prompt' image_data_url' max_tokens' H.
    destruct (payload_reads settings prompt image_data_url max_tokens)
      as (Hp & Hu & Hm).
    destruct (payload_reads settings prompt' image_data_url' max_tokens')
      as (Hp' & Hu' & Hm').
    rewrite H in Hp, Hu, Hm.
    rewrite Hp' in Hp. rewrite Hu' in Hu. rewrite Hm' in Hm.
    injection Hp as ->. injection Hu as ->. injection Hm as ->.
    now repeat split.
Qed.

Lemma request_body_carries_its_inputs_witness :
  "Extract." = "Extract." /\ Completion.tiny_image = Completion.tiny_image
  /\ 64%Z = 64%Z.
Proof.
  exact (proj2 (proj2 (proj2 (request_body_carries_its_inputs
           Completion.settings0 "Extract." Completion.tiny_image 64)))
           "Extract." Completion.tiny_image 64%Z eq_refl).
Defined.

End PayloadFacts.
